(** * SentinelStream: the transaction risk-decision pipeline

    A shallow embedding of the scoring path of the SentinelStream service
    ([app/rules.py], [app/model_scorer.py], [app/idempotency.py] and the
    [/transaction] handler of [app/main.py]) together with the properties
    of its specification.

    Conventions of the embedding.
    - Python values that travel through JSON columns and dictionaries are
      the inductive type [value].  Numbers ([int], [float]) are exact
      rationals; [bool] is a number where Python treats it as one.  NaN
      and the infinities are not represented.
    - Strings are byte strings (UTF-8); byte-wise order and containment
      agree with Python's code-point order and containment.
    - A Python call either returns or raises: [result A].
    - Scores that go through the sigmoid are real numbers; the rule
      engine only compares numbers and stays in [Q].
    - The built-ins [float(str)] and [str(list)], SHA-256 over the
      canonical JSON text, and the fitted isolation forest are taken as
      parameters: every theorem holds for whatever they compute.
    - Redis and the SQL database are finite maps and lists; whether they
      answer during a request is part of the environment of that request.
      What they hold is what was written to them; a response dictionary
      reaches them through [json.dumps], which refuses a [datetime]. *)

From Stdlib Require Import QArith Qminmax Qabs Qreals Reals Lra.
From Stdlib Require Import String Ascii List Bool.
From stdpp Require Import base gmap strings list fin_maps pretty sorting.
Import ListNotations.

Set Warnings "-register-all".
Local Open Scope string_scope.
Local Open Scope list_scope.

(** ** Exceptions and results *)

Inductive exn : Type :=
| TypeError
| ValueError
| AttributeError
| ValidationError
| HTTPException (status_code : nat)
| OperationalError
| IntegrityError
| RedisConnectionError
| ModelUnavailable.

Inductive result (A : Type) : Type :=
| Ok (a : A)
| Raise (e : exn).

Arguments Ok {A} a.
Arguments Raise {A} e.

Definition rbind {A B : Type} (m : result A) (k : A → result B) : result B :=
  match m with
  | Ok a => k a
  | Raise e => Raise e
  end.

Notation "'let*' x ':=' m 'in' k" := (rbind m (fun x => k))
  (at level 10, x name, m at level 100, k at level 200).

Definition is_ok {A : Type} (m : result A) : bool :=
  match m with Ok _ => true | Raise _ => false end.

(** ** Python values *)

Inductive value : Type :=
| VNone
| VBool (b : bool)
| VNum (q : Q)
| VStr (s : string)
| VList (l : list value)
| VDict (d : list (string * value)).

(** A JSON object, as [json.loads] hands it over. *)
Abbreviation dict := (list (string * value)).

Fixpoint dict_lookup (k : string) (d : dict) : option value :=
  match d with
  | [] => None
  | (k', v) :: d' => if String.eqb k k' then Some v else dict_lookup k d'
  end.

(** [d.get(k)] and [d.get(k, default)] *)
Definition dict_get (k : string) (d : dict) : value :=
  match dict_lookup k d with Some v => v | None => VNone end.

Definition dict_get_default (k : string) (default : value) (d : dict) : value :=
  match dict_lookup k d with Some v => v | None => default end.

(** [isinstance(v, (int, float))]: [bool] is a subclass of [int]. *)
Definition as_number (v : value) : option Q :=
  match v with
  | VBool true => Some 1%Q
  | VBool false => Some 0%Q
  | VNum q => Some q
  | _ => None
  end.

Definition is_number (v : value) : bool :=
  match as_number v with Some _ => true | None => false end.

Definition is_list (v : value) : bool :=
  match v with VList _ => true | _ => false end.

(** [bool(v)] *)
Definition truthy (v : value) : bool :=
  match v with
  | VNone => false
  | VBool b => b
  | VNum q => negb (Qeq_bool q 0)
  | VStr s => negb (String.eqb s "")
  | VList l => match l with [] => false | _ => true end
  | VDict d => match d with [] => false | _ => true end
  end.

(** Lists and dictionaries cannot be dictionary keys. *)
Definition hashable (v : value) : bool :=
  match v with
  | VList _ | VDict _ => false
  | _ => true
  end.

(** [a == b] *)
Fixpoint py_eq (a b : value) : bool :=
  match a, b with
  | VNone, VNone => true
  | VStr s, VStr t => String.eqb s t
  | VList l, VList m =>
      (fix eq_items (l m : list value) {struct l} : bool :=
         match l, m with
         | [], [] => true
         | x :: l', y :: m' => py_eq x y && eq_items l' m'
         | _, _ => false
         end) l m
  | VDict d, VDict e =>
      Nat.eqb (length d) (length e) &&
      (fix eq_entries (d : dict) {struct d} : bool :=
         match d with
         | [] => true
         | (k, v) :: d' =>
             match dict_lookup k e with
             | Some w => py_eq v w
             | None => false
             end && eq_entries d'
         end) d
  | _, _ =>
      match as_number a, as_number b with
      | Some x, Some y => Qeq_bool x y
      | _, _ => false
      end
  end.

(** Three-way comparison behind [<], [<=], [>], [>=]: defined on two
    numbers, two strings, and two lists whose first differing items are
    comparable; a [TypeError] otherwise. *)
Fixpoint py_cmp (a b : value) : result comparison :=
  match a, b with
  | VStr s, VStr t => Ok (String.compare s t)
  | VList l, VList m =>
      (fix cmp_items (l m : list value) {struct l} : result comparison :=
         match l, m with
         | [], [] => Ok Eq
         | [], _ :: _ => Ok Lt
         | _ :: _, [] => Ok Gt
         | x :: l', y :: m' => if py_eq x y then cmp_items l' m' else py_cmp x y
         end) l m
  | _, _ =>
      match as_number a, as_number b with
      | Some x, Some y => Ok (Qcompare x y)
      | _, _ => Raise TypeError
      end
  end.

Definition py_lt (a b : value) : result bool :=
  let* c := py_cmp a b in Ok (match c with Lt => true | _ => false end).
Definition py_le (a b : value) : result bool :=
  let* c := py_cmp a b in Ok (match c with Gt => false | _ => true end).
Definition py_gt (a b : value) : result bool :=
  let* c := py_cmp a b in Ok (match c with Gt => true | _ => false end).
Definition py_ge (a b : value) : result bool :=
  let* c := py_cmp a b in Ok (match c with Lt => false | _ => true end).

(** [needle in hay] on strings *)
Fixpoint is_substring (needle hay : string) : bool :=
  String.prefix needle hay ||
  match hay with
  | EmptyString => false
  | String _ hay' => is_substring needle hay'
  end.

(** [a in l] on a list *)
Definition list_contains (a : value) (l : list value) : bool :=
  existsb (fun x => py_eq x a) l.

(** [s.upper()]; only its comparison with ["AND"] and ["OR"] is used, and
    no character outside ASCII upper-cases to a letter of those words. *)
Definition ascii_upper (c : ascii) : ascii :=
  let n := nat_of_ascii c in
  if (97 <=? n)%nat && (n <=? 122)%nat then ascii_of_nat (n - 32) else c.

Fixpoint upper (s : string) : string :=
  match s with
  | EmptyString => EmptyString
  | String c s' => String (ascii_upper c) (upper s')
  end.

(** Iterating a value in a [for] or a generator expression. *)
Definition py_iter (v : value) : result (list value) :=
  match v with
  | VList l => Ok l
  | VDict d => Ok (map (fun kv => VStr (fst kv)) d)
  | VStr s => Ok (map (fun c => VStr (String c EmptyString)) (list_ascii_of_string s))
  | _ => Raise TypeError
  end.

(** [all(f(x) for x in l)] and [any(f(x) for x in l)]: left to right,
    stopping at the first decisive item or the first exception. *)
Fixpoint py_all (f : value → result bool) (l : list value) : result bool :=
  match l with
  | [] => Ok true
  | x :: l' => let* b := f x in if b then py_all f l' else Ok false
  end.

Fixpoint py_any (f : value → result bool) (l : list value) : result bool :=
  match l with
  | [] => Ok false
  | x :: l' => let* b := f x in if b then Ok true else py_any f l'
  end.

(** The built-ins the rule engine calls and that are not re-implemented:
    [float(s)] on a string ([None] when it raises [ValueError]) and
    [str(l)] on a list. *)
Class Builtins : Type := {
  float_of_str : string → option Q;
  str_of_list : list value → string;
}.

(** ** The rule engine ([app/rules.py]) *)

(** A row of [fraud_rules]; [rule_condition] and [rule_actions] are JSON
    columns and hold whatever was written to them. *)
Record FraudRule : Type := {
  id : Z;
  rule_name : string;
  rule_condition : value;
  rule_actions : value;
  is_active : bool;
  priority : Z;
}.

Record TriggeredRule : Type := {
  triggered_name : string;
  triggered_id : Z;
  triggered_risk_score : value;
}.

Record RuleResult : Type := {
  rule_score : value;
  triggered_rules : list TriggeredRule;
  flags : list string;
}.

(** [ORDER BY priority DESC] over the active rules; rows of equal
    priority keep their table order. *)
Fixpoint insert_by_priority (r : FraudRule) (l : list FraudRule) : list FraudRule :=
  match l with
  | [] => [r]
  | x :: l' =>
      if (priority x <=? priority r)%Z then r :: l
      else x :: insert_by_priority r l'
  end.

Definition load_rules (fraud_rules : list FraudRule) : list FraudRule :=
  foldr insert_by_priority [] (filter (fun r => is_active r = true) fraud_rules).

Section RuleEngine.
Context `{Builtins}.

(** [b in str(a)]: the left operand of [in] on a string must be a string. *)
Definition str_contains (b : value) (s : string) : result bool :=
  match b with
  | VStr t => Ok (is_substring t s)
  | _ => Raise TypeError
  end.

(** The table of comparison closures of [evaluate_condition]; [a] is the
    transaction's value and [b] the rule's. *)
Definition operators : list (string * (value → value → result bool)) :=
  [ ("==", fun a b => Ok (py_eq a b));
    ("!=", fun a b => Ok (negb (py_eq a b)));
    (">", py_gt);
    (">=", py_ge);
    ("<", py_lt);
    ("<=", py_le);
    ("in", fun a b =>
       match b with VList l => Ok (list_contains a l) | _ => Ok false end);
    ("not_in", fun a b =>
       match b with VList l => Ok (negb (list_contains a l)) | _ => Ok true end);
    ("contains", fun a b =>
       match a with
       | VStr s => str_contains b s
       | VList l => str_contains b (str_of_list l)
       | _ => Ok false
       end) ].

Fixpoint operator_lookup (op : string)
    (table : list (string * (value → value → result bool)))
    : option (value → value → result bool) :=
  match table with
  | [] => None
  | (k, f) :: table' => if String.eqb op k then Some f else operator_lookup op table'
  end.

(** [transaction[field]] for a key that passed [field in transaction];
    the keys of a transaction are strings. *)
Definition attribute (field : value) (transaction : gmap string value) : option value :=
  match field with
  | VStr f => transaction !! f
  | _ => None
  end.

(** The numeric coercion; [None] is the early [return False]. *)
Definition coerce (rule_value transaction_value : value) : option value :=
  match transaction_value with
  | VStr s =>
      if is_number rule_value then
        match float_of_str s with
        | Some q => Some (VNum q)
        | None => None
        end
      else Some transaction_value
  | _ => Some transaction_value
  end.

Definition evaluate_condition (condition : value) (transaction : gmap string value)
    : result bool :=
  match condition with
  | VDict c =>
      let field := dict_get "field" c in
      let operator := dict_get "operator" c in
      let rule_value := dict_get "value" c in
      if negb (hashable field) then Raise TypeError else
      match attribute field transaction with
      | None => Ok false
      | Some transaction_value =>
          match coerce rule_value transaction_value with
          | None => Ok false
          | Some transaction_value =>
              if negb (hashable operator) then Raise TypeError else
              match operator with
              | VStr op =>
                  match operator_lookup op operators with
                  | Some f =>
                      match f transaction_value rule_value with
                      | Ok b => Ok b
                      | Raise TypeError | Raise ValueError => Ok false
                      | Raise e => Raise e
                      end
                  | None => Ok false
                  end
              | _ => Ok false
              end
          end
      end
  | _ => Raise AttributeError
  end.

Definition evaluate_conditions (conditions : value) (transaction : gmap string value)
    : result bool :=
  match conditions with
  | VDict c =>
      match dict_lookup "logic" c with
      | Some (VStr s) =>
          let logic := upper s in
          let condition_list := dict_get_default "conditions" (VList []) c in
          if String.eqb logic "AND" then
            let* l := py_iter condition_list in
            py_all (fun cond => evaluate_condition cond transaction) l
          else if String.eqb logic "OR" then
            let* l := py_iter condition_list in
            py_any (fun cond => evaluate_condition cond transaction) l
          else Ok false
      | Some _ => Raise AttributeError
      | None => evaluate_condition conditions transaction
      end
  | VList _ | VStr _ => Raise AttributeError
  | _ => Raise TypeError
  end.

(** [rule.rule_actions or {}], then used through [.get]. *)
Definition actions_of (rule : FraudRule) : result dict :=
  if truthy (rule_actions rule) then
    match rule_actions rule with
    | VDict a => Ok a
    | _ => Raise AttributeError
    end
  else Ok [].

(** [min(a, b)]: the first argument unless the second is smaller. *)
Definition py_min (a b : value) : result value :=
  let* lt := py_lt b a in Ok (if lt then b else a).

(** One turn of the loop of [evaluate_transaction]. *)
Definition apply_rule (transaction : gmap string value) (acc : RuleResult)
    (rule : FraudRule) : result RuleResult :=
  let* hit := evaluate_conditions (rule_condition rule) transaction in
  if hit then
    let* actions := actions_of rule in
    let risk_score := dict_get_default "risk_score" (VNum 0.5) actions in
    let* higher := py_gt risk_score (rule_score acc) in
    Ok {| rule_score := if higher then risk_score else rule_score acc;
          triggered_rules :=
            triggered_rules acc ++
            [ {| triggered_name := rule_name rule;
                 triggered_id := id rule;
                 triggered_risk_score := risk_score |} ];
          flags :=
            if truthy (dict_get_default "flag" (VBool false) actions)
            then flags acc ++ [rule_name rule]
            else flags acc |}
  else Ok acc.

Fixpoint run_rules (transaction : gmap string value) (acc : RuleResult)
    (rules : list FraudRule) : result RuleResult :=
  match rules with
  | [] => Ok acc
  | rule :: rules' =>
      let* acc' := apply_rule transaction acc rule in
      run_rules transaction acc' rules'
  end.

(** [evaluate_transaction] over the rules the engine holds. *)
Definition evaluate_transaction (rules : list FraudRule)
    (transaction : gmap string value) : result RuleResult :=
  let* acc := run_rules transaction
                {| rule_score := VNum 0; triggered_rules := []; flags := [] |} rules in
  let* capped := py_min (rule_score acc) (VNum 1) in
  Ok {| rule_score := capped;
        triggered_rules := triggered_rules acc;
        flags := flags acc |}.

End RuleEngine.

(** ** The anomaly scorer ([app/model_scorer.py]) *)

(** [score_transaction]: the sigmoid of the isolation forest's decision
    value.  [decision] is what loading the model, extracting the six
    features and calling [decision_function] produce: a value or an
    exception.  The sigmoid is taken over the real numbers; the code
    computes it in binary64, where it can round to 0 or 1, so that only
    its non-strict bounds are used below. *)
Definition score_transaction (decision : result R) : result R :=
  let* decision_score := decision in
  Ok (1 / (1 + exp decision_score))%R.

(** ** Schemas and tables ([app/schemas.py], [app/models.py]) *)

Module TransactionRequest.
Record t : Type := {
  user_id : string;
  amount : Q;
  currency : string;
  location : option string;
  merchant_id : option string;
  card_number_hash : option string;
  transaction_type : string;
  idempotency_key : string;
  metadata : option dict;
}.
End TransactionRequest.

Module TransactionResponse.
Record t : Type := {
  transaction_id : string;
  status : string;
  is_fraud : bool;
  risk_score : R;
  rule_score : R;
  ml_score : R;
  message : string;
  created_at : Z;
}.
End TransactionResponse.

(** A response as a Python dictionary.  [response.dict()] keeps
    [created_at] the [datetime] object it is; in a dictionary that was
    parsed from JSON every value is a JSON value, and the dictionary stands
    for the response it parses to (none for an empty one). *)
Inductive response_dict : Type :=
| dict_of_response (r : TransactionResponse.t)
| json_object (data : option TransactionResponse.t).

(** [json.dumps], also what a JSON column does with its value when the
    row is flushed: a [datetime] is not JSON serializable. *)
Definition json_dumps (d : response_dict) : result (option TransactionResponse.t) :=
  match d with
  | dict_of_response _ => Raise TypeError
  | json_object data => Ok data
  end.

Module Transaction.
Record t : Type := {
  transaction_id : string;
  user_id : string;
  amount : Q;
  currency : string;
  location : option string;
  merchant_id : option string;
  card_number_hash : option string;
  transaction_type : string;
  rule_score : R;
  ml_score : R;
  final_risk_score : R;
  is_fraud : bool;
  is_approved : bool;
  idempotency_key : string;
  transaction_metadata : option dict;
  created_at : Z;
}.
End Transaction.

Module IdempotencyKey.
(** [response_data] is [None] for a NULL or empty JSON object. *)
Record t : Type := {
  idempotency_key : string;
  request_hash : string;
  response_data : option TransactionResponse.t;
  expires_at : Z;
}.
End IdempotencyKey.

(** [Field(..., ge=0.0, le=1.0)] *)
Definition in_unit_interval (x : R) : bool :=
  if Rle_dec 0 x then (if Rle_dec x 1 then true else false) else false.

(** What constructing a [TransactionResponse] checks. *)
Definition validate_response (r : TransactionResponse.t) : bool :=
  in_unit_interval (TransactionResponse.risk_score r) &&
  in_unit_interval (TransactionResponse.rule_score r) &&
  in_unit_interval (TransactionResponse.ml_score r).

(** ** The stores and the environment of one request *)

Inductive task : Type :=
| send_fraud_alert_email (user_id transaction_id : string) (risk_score : R)
| update_user_profile (user_id : string) (transaction_data : gmap string value).

(** Times are seconds.  A Redis entry carries the instant it expires. *)
Record World : Type := {
  redis_idempotency : gmap string (option TransactionResponse.t * Z);
  redis_user_profile : gmap string (dict * Z);
  idempotency_keys : gmap string IdempotencyKey.t;
  transactions : list Transaction.t;
  users : gset string;
  fraud_rules : list FraudRule;
  task_queue : list task;
}.

Inductive step : Type :=
| IdempotencyCheck
| ProfileLookup
| Evaluate
| Persist
| Commit.

Record Env : Type := {
  utcnow : Z;
  database_now : Z;
  uuid4 : string;
  redis_up : step → bool;
  db_up : step → bool;
  decision_function : gmap string value → dict → result R;
  elapsed_ms : Z;
  REDIS_TTL : Z;
}.

(** SHA-256 of the key-sorted JSON text of a request body. *)
Class Digest : Type := {
  sha256_json : TransactionRequest.t → string;
}.

(** ** Redis helpers ([app/redis_cache.py]) *)

Definition redis_get {A : Type} (up : bool) (now : Z) (store : gmap string (A * Z))
    (key : string) : result (option A) :=
  if up then
    Ok (match store !! key with
        | Some (data, expiry) => if (now <? expiry)%Z then Some data else None
        | None => None
        end)
  else Raise RedisConnectionError.

Definition redis_setex {A : Type} (up : bool) (now : Z) (store : gmap string (A * Z))
    (key : string) (ttl : Z) (data : A) : result (gmap string (A * Z)) :=
  if up then Ok (<[key := (data, (now + ttl)%Z)]> store)
  else Raise RedisConnectionError.

(** An empty cached object is as good as none for the callers' [if]. *)
Definition get_idempotency_response (up : bool) (now : Z) (w : World) (key : string)
    : result (option TransactionResponse.t) :=
  let* data := redis_get up now (redis_idempotency w) key in
  Ok (match data with Some payload => payload | None => None end).

Definition set_idempotency_response (up : bool) (now : Z) (w : World) (key : string)
    (response : option TransactionResponse.t) (ttl : Z) : result World :=
  let* store := redis_setex up now (redis_idempotency w) key ttl response in
  Ok {| redis_idempotency := store;
        redis_user_profile := redis_user_profile w;
        idempotency_keys := idempotency_keys w;
        transactions := transactions w;
        users := users w;
        fraud_rules := fraud_rules w;
        task_queue := task_queue w |}.

Definition get_user_profile (up : bool) (now : Z) (w : World) (user_id : string)
    : result (option dict) :=
  redis_get up now (redis_user_profile w) user_id.

Definition set_user_profile (up : bool) (now : Z) (ttl : Z) (w : World) (user_id : string)
    (profile : dict) : result World :=
  let* store := redis_setex up now (redis_user_profile w) user_id ttl profile in
  Ok {| redis_idempotency := redis_idempotency w;
        redis_user_profile := store;
        idempotency_keys := idempotency_keys w;
        transactions := transactions w;
        users := users w;
        fraud_rules := fraud_rules w;
        task_queue := task_queue w |}.

(** ** Idempotency ([app/idempotency.py]) *)

Definition with_idempotency_keys (w : World) (table : gmap string IdempotencyKey.t) : World :=
  {| redis_idempotency := redis_idempotency w;
     redis_user_profile := redis_user_profile w;
     idempotency_keys := table;
     transactions := transactions w;
     users := users w;
     fraud_rules := fraud_rules w;
     task_queue := task_queue w |}.

Section Idempotency.
Context `{Digest}.

Definition generate_request_hash (request_body : TransactionRequest.t) : string :=
  sha256_json request_body.

Definition check_idempotency_key (env : Env) (w : World) (idempotency_key : string)
    (request_body : TransactionRequest.t)
    : result (option TransactionResponse.t) * World :=
  match get_idempotency_response (redis_up env IdempotencyCheck) (utcnow env) w
          idempotency_key with
  | Raise e => (Raise e, w)
  | Ok (Some cached_response) => (Ok (Some cached_response), w)
  | Ok None =>
      let request_hash := generate_request_hash request_body in
      if negb (db_up env IdempotencyCheck) then (Raise OperationalError, w) else
      match idempotency_keys w !! idempotency_key with
      | Some idempotency_record =>
          if String.eqb (IdempotencyKey.request_hash idempotency_record) request_hash then
            if (utcnow env <? IdempotencyKey.expires_at idempotency_record)%Z then
              let response_data := IdempotencyKey.response_data idempotency_record in
              match set_idempotency_response (redis_up env IdempotencyCheck) (utcnow env)
                      w idempotency_key response_data 3600 with
              | Ok w' => (Ok response_data, w')
              | Raise e => (Raise e, w)
              end
            else
              (Ok None, with_idempotency_keys w (delete idempotency_key (idempotency_keys w)))
          else (Raise (HTTPException 409), w)
      | None => (Ok None, w)
      end
  end.

(** The commit of line 86 flushes the new row: it needs the database,
    then serializes [response_data] for the JSON column, then inserts
    under the unique key.  Nothing is written when it raises, and Redis is
    reached only after it. *)
Definition store_idempotency_key (env : Env) (w : World) (idempotency_key : string)
    (request_body : TransactionRequest.t) (response_data : response_dict)
    (ttl_hours : Z) : result unit * World :=
  let request_hash := generate_request_hash request_body in
  let expires_at := (utcnow env + ttl_hours * 3600)%Z in
  if negb (db_up env Commit) then (Raise OperationalError, w) else
  match json_dumps response_data with
  | Raise e => (Raise e, w)
  | Ok stored =>
      let idempotency_record :=
        {| IdempotencyKey.idempotency_key := idempotency_key;
           IdempotencyKey.request_hash := request_hash;
           IdempotencyKey.response_data := stored;
           IdempotencyKey.expires_at := expires_at |} in
      match idempotency_keys w !! idempotency_key with
      | Some _ => (Raise IntegrityError, w)
      | None =>
          let w1 := with_idempotency_keys w
                      (<[idempotency_key := idempotency_record]> (idempotency_keys w)) in
          match set_idempotency_response (redis_up env Commit) (utcnow env) w1
                  idempotency_key stored (ttl_hours * 3600) with
          | Ok w2 => (Ok tt, w2)
          | Raise e => (Raise e, w1)
          end
      end
  end.

End Idempotency.

(** ** Decision fusion ([app/main.py], lines 213-218) *)

Definition final_risk_score (rule_score ml_score : R) : R :=
  (rule_score * 0.4 + ml_score * 0.6)%R.

Definition is_fraud (final_risk_score : R) : bool :=
  if Rgt_dec final_risk_score 0.7 then true else false.

Definition is_approved (final_risk_score : R) : bool :=
  if Rlt_dec final_risk_score 0.8 then true else false.

(** ** The [/transaction] handler ([app/main.py]) *)

(** The warnings the handler prints. *)
Inductive warning : Type :=
| IdempotencyCheckFailed (e : exn)
| RedisCacheUnavailable (e : exn)
| ProfileCacheFailed (e : exn)
| RuleEngineFailed (e : exn)
| DatabaseUnavailable (e : exn)
| IdempotencyStoreFailed (e : exn)
| SlowRequest.

(** How a request ends: the cached response of line 167, the fresh
    response of line 292, or an exception nobody caught. *)
Inductive outcome : Type :=
| Replayed (response : TransactionResponse.t)
| Processed (response : TransactionResponse.t)
| Crashed (e : exn).

Record Run : Type := {
  answer : outcome;
  world : World;
  log : list warning;
}.

(** An [HTTPException] that leaves the handler keeps its status code; any
    other exception is a 500. *)
Definition http_status (o : outcome) : nat :=
  match o with
  | Replayed _ | Processed _ => 200
  | Crashed (HTTPException code) => code
  | Crashed _ => 500
  end.

Definition optional_str (s : option string) : value :=
  match s with Some s => VStr s | None => VNone end.

(** The dictionary handed to the rule engine and the scorer. *)
Definition transaction_data (txn : TransactionRequest.t) : gmap string value :=
  <["amount" := VNum (TransactionRequest.amount txn)]>
  (<["location" := optional_str (TransactionRequest.location txn)]>
  (<["user_id" := VStr (TransactionRequest.user_id txn)]>
  (<["merchant_id" := optional_str (TransactionRequest.merchant_id txn)]>
  (<["transaction_type" := VStr (TransactionRequest.transaction_type txn)]> ∅)))).

Definition default_profile : dict :=
  [ ("risk_score", VNum 0.1);
    ("home_location", VNone);
    ("average_transaction_amount", VNum 0);
    ("transaction_count", VNum 0) ].

Definition with_transactions (w : World) (rows : list Transaction.t) : World :=
  {| redis_idempotency := redis_idempotency w;
     redis_user_profile := redis_user_profile w;
     idempotency_keys := idempotency_keys w;
     transactions := rows;
     users := users w;
     fraud_rules := fraud_rules w;
     task_queue := task_queue w |}.

Definition with_task_queue (w : World) (queue : list task) : World :=
  {| redis_idempotency := redis_idempotency w;
     redis_user_profile := redis_user_profile w;
     idempotency_keys := idempotency_keys w;
     transactions := transactions w;
     users := users w;
     fraud_rules := fraud_rules w;
     task_queue := queue |}.

Section Pipeline.
Context `{Builtins} `{Digest}.

(** Lines 162-170: the cached response if there is a usable one;
    whatever the check raises is printed and processing goes on. *)
Definition resolve_idempotency (env : Env) (w : World) (txn : TransactionRequest.t)
    : option TransactionResponse.t * World * list warning :=
  match check_idempotency_key env w (TransactionRequest.idempotency_key txn) txn with
  | (Ok (Some cached_response), w') =>
      if validate_response cached_response then (Some cached_response, w', [])
      else (None, w', [IdempotencyCheckFailed ValidationError])
  | (Ok None, w') => (None, w', [])
  | (Raise e, w') => (None, w', [IdempotencyCheckFailed e])
  end.

(** Lines 172-190 *)
Definition load_profile (env : Env) (w : World) (txn : TransactionRequest.t)
    : dict * World * list warning :=
  let '(user_profile, log1) :=
    match get_user_profile (redis_up env ProfileLookup) (utcnow env) w
            (TransactionRequest.user_id txn) with
    | Ok p => (p, [])
    | Raise e => (None, [RedisCacheUnavailable e])
    end in
  match user_profile with
  | Some ((_ :: _) as p) => (p, w, log1)
  | _ =>
      match set_user_profile (redis_up env ProfileLookup) (utcnow env) (REDIS_TTL env) w
              (TransactionRequest.user_id txn) default_profile with
      | Ok w' => (default_profile, w', log1)
      | Raise e => (default_profile, w, log1 ++ [ProfileCacheFailed e])
      end
  end.

(** Lines 201-208: a fresh engine loads the active rules and evaluates. *)
Definition evaluate_rules (env : Env) (w : World) (data : gmap string value)
    : value * list warning :=
  let rule_result :=
    if db_up env Evaluate then evaluate_transaction (load_rules (fraud_rules w)) data
    else Raise OperationalError in
  match rule_result with
  | Ok res => (rule_score res, [])
  | Raise e => (VNum 0, [RuleEngineFailed e])
  end.

(** Lines 223-249: the ledger row, or the local clock when the insert
    fails. *)
Definition persist (env : Env) (w : World) (row : Transaction.t)
    : Z * World * list warning :=
  if negb (db_up env Persist) then (utcnow env, w, [DatabaseUnavailable OperationalError])
  else if
    forallb (fun t =>
      negb (String.eqb (Transaction.idempotency_key t) (Transaction.idempotency_key row)) &&
      negb (String.eqb (Transaction.transaction_id t) (Transaction.transaction_id row)))
      (transactions w)
    && bool_decide (Transaction.user_id row ∈ users w)
  then (database_now env, with_transactions w (transactions w ++ [row]), [])
  else (utcnow env, w, [DatabaseUnavailable IntegrityError]).

Definition process_transaction (env : Env) (w : World) (txn : TransactionRequest.t) : Run :=
  let request_body := txn in
  match resolve_idempotency env w txn with
  | (Some cached_response, w1, log1) =>
      {| answer := Replayed cached_response; world := w1; log := log1 |}
  | (None, w1, log1) =>
      let '(user_profile, w2, log2) := load_profile env w1 txn in
      let data := transaction_data txn in
      let '(rule_score, log3) := evaluate_rules env w2 data in
      match score_transaction (decision_function env data user_profile) with
      | Raise e => {| answer := Crashed e; world := w2; log := log1 ++ log2 ++ log3 |}
      | Ok ml_score =>
          match as_number rule_score with
          | None => {| answer := Crashed TypeError; world := w2; log := log1 ++ log2 ++ log3 |}
          | Some rule_score =>
              let rule_score := Q2R rule_score in
              let final := final_risk_score rule_score ml_score in
              let fraud := is_fraud final in
              let approved := is_approved final in
              let transaction_id := uuid4 env in
              let row :=
                {| Transaction.transaction_id := transaction_id;
                   Transaction.user_id := TransactionRequest.user_id txn;
                   Transaction.amount := TransactionRequest.amount txn;
                   Transaction.currency := TransactionRequest.currency txn;
                   Transaction.location := TransactionRequest.location txn;
                   Transaction.merchant_id := TransactionRequest.merchant_id txn;
                   Transaction.card_number_hash := TransactionRequest.card_number_hash txn;
                   Transaction.transaction_type := TransactionRequest.transaction_type txn;
                   Transaction.rule_score := rule_score;
                   Transaction.ml_score := ml_score;
                   Transaction.final_risk_score := final;
                   Transaction.is_fraud := fraud;
                   Transaction.is_approved := approved;
                   Transaction.idempotency_key := TransactionRequest.idempotency_key txn;
                   Transaction.transaction_metadata := TransactionRequest.metadata txn;
                   Transaction.created_at := database_now env |} in
              let '(created_at, w3, log4) := persist env w2 row in
              let response_data :=
                {| TransactionResponse.transaction_id := transaction_id;
                   TransactionResponse.status := if approved then "approved" else "declined";
                   TransactionResponse.is_fraud := fraud;
                   TransactionResponse.risk_score := final;
                   TransactionResponse.rule_score := rule_score;
                   TransactionResponse.ml_score := ml_score;
                   TransactionResponse.message :=
                     if approved then "Transaction processed successfully"
                     else "Transaction declined due to high risk";
                   TransactionResponse.created_at := created_at |} in
              if negb (validate_response response_data) then
                {| answer := Crashed ValidationError; world := w3;
                   log := log1 ++ log2 ++ log3 ++ log4 |}
              else
                let '(w4, log5) :=
                  match store_idempotency_key env w3
                          (TransactionRequest.idempotency_key txn) request_body
                          (dict_of_response response_data) 24 with
                  | (Ok _, w') => (w', [])
                  | (Raise e, w') => (w', [IdempotencyStoreFailed e])
                  end in
                let alerts :=
                  if fraud
                  then [send_fraud_alert_email (TransactionRequest.user_id txn)
                          transaction_id final]
                  else [] in
                let w5 :=
                  with_task_queue w4
                    (task_queue w4 ++ alerts ++
                     [update_user_profile (TransactionRequest.user_id txn) data]) in
                let log6 := if (200 <? elapsed_ms env)%Z then [SlowRequest] else [] in
                {| answer := Processed response_data; world := w5;
                   log := log1 ++ log2 ++ log3 ++ log4 ++ log5 ++ log6 |}
          end
      end
  end.

(** The result of a request was committed when the handler answered
    from line 292 and [store_idempotency_key] returned. *)
Definition store_failed (wn : warning) : bool :=
  match wn with IdempotencyStoreFailed _ => true | _ => false end.

Definition committed (r : Run) : bool :=
  match answer r with
  | Processed _ => negb (existsb store_failed (log r))
  | _ => false
  end.

End Pipeline.

(** * Vocabulary of the properties *)

(** A leaf predicate [{field, operator, value}]. *)
Definition leaf (field operator rule_value : value) : value :=
  VDict [("field", field); ("operator", operator); ("value", rule_value)].

(** Induction over values that reaches inside lists and objects. *)
Section ValueInduction.
Variable P : value → Prop.
Hypothesis HNone : P VNone.
Hypothesis HBool : ∀ b, P (VBool b).
Hypothesis HNum : ∀ q, P (VNum q).
Hypothesis HStr : ∀ s, P (VStr s).
Hypothesis HList : ∀ l, Forall P l → P (VList l).
Hypothesis HDict : ∀ d, Forall (fun kv => P (snd kv)) d → P (VDict d).

Fixpoint value_nested_ind (v : value) : P v :=
  match v with
  | VNone => HNone
  | VBool b => HBool b
  | VNum q => HNum q
  | VStr s => HStr s
  | VList l =>
      HList l
        ((fix items (l : list value) : Forall P l :=
            match l with
            | [] => List.Forall_nil P
            | x :: l' => List.Forall_cons P x l' (value_nested_ind x) (items l')
            end) l)
  | VDict d =>
      HDict d
        ((fix entries (d : dict) : Forall (fun kv => P (snd kv)) d :=
            match d with
            | [] => List.Forall_nil _
            | kv :: d' =>
                List.Forall_cons (fun kv => P (snd kv)) kv d'
                  (value_nested_ind (snd kv)) (entries d')
            end) d)
  end.
End ValueInduction.

(** ** The aggregation of the rule engine, in the specification's words *)

Section RuleVocabulary.
Context `{Builtins}.

(** The rule's condition evaluates to true on the transaction. *)
Definition triggers (transaction : gmap string value) (rule : FraudRule) : bool :=
  match evaluate_conditions (rule_condition rule) transaction with
  | Ok true => true
  | _ => false
  end.

(** The [risk_score] of the rule's action, 0.5 when the action leaves
    it unspecified; [None] when the action is not an object or its
    [risk_score] is not a number. *)
Definition risk_score_action (rule : FraudRule) : option Q :=
  match actions_of rule with
  | Ok actions => as_number (dict_get_default "risk_score" (VNum 0.5) actions)
  | Raise _ => None
  end.

(** The rule's action sets [flag]. *)
Definition flag_action (rule : FraudRule) : bool :=
  match actions_of rule with
  | Ok actions => truthy (dict_get_default "flag" (VBool false) actions)
  | Raise _ => false
  end.

(** A rule the engine can process on this transaction: its condition
    evaluates, and if it triggers its action carries a numeric score. *)
Definition well_formed (transaction : gmap string value) (rule : FraudRule) : bool :=
  match evaluate_conditions (rule_condition rule) transaction with
  | Ok true => match risk_score_action rule with Some _ => true | None => false end
  | Ok false => true
  | Raise _ => false
  end.

Definition triggered (transaction : gmap string value) (rules : list FraudRule)
    : list FraudRule :=
  List.filter (triggers transaction) rules.

Definition triggered_scores (transaction : gmap string value) (rules : list FraudRule)
    : list Q :=
  map (fun rule => match risk_score_action rule with Some q => q | None => 0%Q end)
      (triggered transaction rules).

End RuleVocabulary.

(** The maximum of a non-empty list of scores, and the clamp to [0,1]. *)
Fixpoint maximum (s : Q) (l : list Q) : Q :=
  match l with
  | [] => s
  | x :: l' => Qmax s (maximum x l')
  end.

Definition clamp (q : Q) : Q := Qmin (Qmax q 0) 1.

Definition spec_rule_score (scores : list Q) : Q :=
  match scores with
  | [] => 0%Q
  | s :: l => clamp (maximum s l)
  end.

(** ** Sample data for closed examples *)

(** [float] on strings of ASCII digits, where it agrees with Python; every
    other string is reported as unparsable, which is right for the
    non-numeric strings of the examples. *)
Fixpoint digits (s : string) (acc : Z) : option Z :=
  match s with
  | EmptyString => Some acc
  | String c s' =>
      let n := Z.of_nat (nat_of_ascii c) in
      if (48 <=? n)%Z && (n <=? 57)%Z then digits s' (10 * acc + (n - 48))%Z else None
  end.

Definition float_of_digits (s : string) : option Q :=
  match s with
  | EmptyString => None
  | _ => match digits s 0 with Some z => Some (inject_Z z) | None => None end
  end.

(** [str] of the empty list; the examples hold no other list. *)
Definition sample_builtins : Builtins :=
  {| float_of_str := float_of_digits; str_of_list := fun _ => "[]" |}.

Definition sample_attributes : gmap string value :=
  <["amount" := VNum 6000]> (<["location" := VStr "Mumbai, India"]> ∅).

Definition high_amount_rule : FraudRule :=
  {| id := 1; rule_name := "High Amount";
     rule_condition := leaf (VStr "amount") (VStr ">") (VNum 5000);
     rule_actions := VDict [("risk_score", VNum 0.9); ("flag", VBool true)];
     is_active := true; priority := 10 |}.

Definition any_amount_rule : FraudRule :=
  {| id := 2; rule_name := "Any Amount";
     rule_condition := leaf (VStr "amount") (VStr ">") (VNum 0);
     rule_actions := VDict [("flag", VBool false)];
     is_active := true; priority := 1 |}.


(** A stand-in for SHA-256 over the canonical JSON text: the text of the
    fields the sample requests differ in. *)
Definition sample_digest : Digest :=
  {| sha256_json := fun body =>
       TransactionRequest.idempotency_key body +:+ "|" +:+
       TransactionRequest.user_id body +:+ "|" +:+
       pretty (Qnum (TransactionRequest.amount body)) +:+ "/" +:+
       pretty (Zpos (Qden (TransactionRequest.amount body))) |}.

Definition sample_request : TransactionRequest.t :=
  {| TransactionRequest.user_id := "user123";
     TransactionRequest.amount := 100;
     TransactionRequest.currency := "USD";
     TransactionRequest.location := Some "New York, NY";
     TransactionRequest.merchant_id := Some "merchant456";
     TransactionRequest.card_number_hash := None;
     TransactionRequest.transaction_type := "purchase";
     TransactionRequest.idempotency_key := "test-key-123";
     TransactionRequest.metadata := Some [] |}.

(** The same key with a different amount. *)
Definition conflicting_request : TransactionRequest.t :=
  {| TransactionRequest.user_id := "user123";
     TransactionRequest.amount := 200;
     TransactionRequest.currency := "USD";
     TransactionRequest.location := Some "New York, NY";
     TransactionRequest.merchant_id := Some "merchant456";
     TransactionRequest.card_number_hash := None;
     TransactionRequest.transaction_type := "purchase";
     TransactionRequest.idempotency_key := "test-key-123";
     TransactionRequest.metadata := Some [] |}.

Definition empty_world : World :=
  {| redis_idempotency := ∅;
     redis_user_profile := ∅;
     idempotency_keys := ∅;
     transactions := [];
     users := {["user123"]};
     fraud_rules := [high_amount_rule; any_amount_rule];
     task_queue := [] |}.

(** Every dependency answers; the model's decision value is 0. *)
Definition sample_env : Env :=
  {| utcnow := 1000;
     database_now := 1001;
     uuid4 := "5f0c1a8e-0001";
     redis_up := fun _ => true;
     db_up := fun _ => true;
     decision_function := fun _ _ => Ok 0%R;
     elapsed_ms := 12;
     REDIS_TTL := 300 |}.

(** One minute later. *)
Definition later_env : Env :=
  {| utcnow := 1060;
     database_now := 1061;
     uuid4 := "5f0c1a8e-0002";
     redis_up := fun _ => true;
     db_up := fun _ => true;
     decision_function := fun _ _ => Ok 0%R;
     elapsed_ms := 12;
     REDIS_TTL := 300 |}.

(** The database is unreachable for the whole request. *)
Definition database_down_env : Env :=
  {| utcnow := 1000;
     database_now := 1001;
     uuid4 := "5f0c1a8e-0003";
     redis_up := fun _ => true;
     db_up := fun _ => false;
     decision_function := fun _ _ => Ok 0%R;
     elapsed_ms := 12;
     REDIS_TTL := 300 |}.

(** The model cannot be loaded. *)
Definition model_down_env : Env :=
  {| utcnow := 1000;
     database_now := 1001;
     uuid4 := "5f0c1a8e-0004";
     redis_up := fun _ => true;
     db_up := fun _ => true;
     decision_function := fun _ _ => Raise ModelUnavailable;
     elapsed_ms := 12;
     REDIS_TTL := 300 |}.

(** A world whose only idempotency record, for the key of the sample
    requests, was written for [sample_request] and expired at 900; Redis
    holds nothing. *)
Definition stale_record : IdempotencyKey.t :=
  {| IdempotencyKey.idempotency_key := "test-key-123";
     IdempotencyKey.request_hash := sha256_json (Digest := sample_digest) sample_request;
     IdempotencyKey.response_data := None;
     IdempotencyKey.expires_at := 900 |}.

Definition stale_world : World :=
  with_idempotency_keys empty_world {["test-key-123" := stale_record]}.


(** * The rest of the scoring path *)

(** ** Feature extraction ([app/model_scorer.py], [extract_features]) *)

(** An operand of Python arithmetic. *)
Definition py_number (v : value) : result Q :=
  match as_number v with
  | Some q => Ok q
  | None => Raise TypeError
  end.

Section FeatureExtraction.
Context `{Builtins}.

(** [float(v)] *)
Definition py_float (v : value) : result Q :=
  match v with
  | VStr s =>
      match float_of_str s with
      | Some q => Ok q
      | None => Raise ValueError
      end
  | _ => py_number v
  end.

(** The six features, in the order of [feature_names]; [hour] and
    [weekday] are what [datetime.now()] gives.  [if user_profile:] holds
    for a non-empty dictionary only. *)
Definition extract_features (hour weekday : Z) (transaction : gmap string value)
    (user_profile : option dict) : result (list Q) :=
  let amount := default (VNum 0) (transaction !! "amount") in
  let* amount_feature := py_float amount in
  let profile := match user_profile with Some ((_ :: _) as p) => Some p | _ => None end in
  let* deviation :=
    match profile with
    | Some p =>
        let avg_amount := dict_get_default "average_transaction_amount" amount p in
        let* positive := py_gt avg_amount (VNum 0) in
        if positive then
          let* a := py_number amount in
          let* avg := py_number avg_amount in
          Ok (Qabs (a - avg) / avg)%Q
        else Ok 1%Q
    | None => Ok 1%Q
    end in
  let location_different :=
    match profile with
    | Some p =>
        let home_location := dict_get "home_location" p in
        let transaction_location := default VNone (transaction !! "location") in
        if truthy home_location && negb (py_eq transaction_location home_location)
        then 1%Q else 0%Q
    | None => 0%Q
    end in
  let* frequency :=
    match profile with
    | Some p =>
        let tx_count := dict_get_default "transaction_count" (VNum 0) p in
        let* count := py_number tx_count in
        Ok (Qmin (count / 1000) 1)
    | None => Ok 0%Q
    end in
  Ok [amount_feature; inject_Z hour; inject_Z weekday; deviation;
      location_different; frequency].

(** What [score_transaction] computes before the sigmoid: the model is
    loaded first, then the features are extracted and handed to the
    forest's [decision_function]; each of the three can raise. *)
Definition forest_decision (model : result (list Q → result R)) (hour weekday : Z)
    (transaction : gmap string value) (user_profile : option dict) : result R :=
  let* forest := model in
  let* features := extract_features hour weekday transaction user_profile in
  forest features.

End FeatureExtraction.

(** ** The rate-limit counter ([app/redis_cache.py], [increment_rate_limit]) *)

(** Redis integers with an optional expiry instant.  [INCR] creates a
    missing or expired key at 1 without expiry and keeps the expiry of a
    live one; [EXPIRE] sets it.  Redis counts in signed 64-bit integers
    and refuses [INCR] at 2^63 - 1; the counter here is not bounded, and
    agrees with Redis as long as it stays below 2^63. *)
Definition counter_live (now : Z) (entry : Z * option Z) : bool :=
  match snd entry with
  | Some expiry => (now <? expiry)%Z
  | None => true
  end.

Definition redis_incr (now : Z) (counters : gmap string (Z * option Z)) (key : string)
    : Z * gmap string (Z * option Z) :=
  match counters !! key with
  | Some (n, expiry) =>
      if counter_live now (n, expiry)
      then ((n + 1)%Z, <[key := ((n + 1)%Z, expiry)]> counters)
      else (1%Z, <[key := (1%Z, None)]> counters)
  | None => (1%Z, <[key := (1%Z, None)]> counters)
  end.

Definition redis_expire (now : Z) (counters : gmap string (Z * option Z)) (key : string)
    (seconds : Z) : gmap string (Z * option Z) :=
  match counters !! key with
  | Some (n, _) => <[key := (n, Some (now + seconds)%Z)]> counters
  | None => counters
  end.

Definition rate_limit_key (key : string) (window : Z) : string :=
  "rate_limit:" +:+ key +:+ ":" +:+ pretty window.

Definition increment_rate_limit (up : bool) (now : Z)
    (counters : gmap string (Z * option Z)) (key : string) (limit window : Z)
    : result (bool * Z * gmap string (Z * option Z)) :=
  if up then
    let count_key := rate_limit_key key window in
    let '(current, counters1) := redis_incr now counters count_key in
    let counters2 :=
      if (current =? 1)%Z then redis_expire now counters1 count_key window
      else counters1 in
    let is_allowed := (current <=? limit)%Z in
    Ok (is_allowed, current, counters2)
  else Raise RedisConnectionError.

(** Successive calls for one key at the given instants, threading the
    counters; the answers in order and the counters left. *)
Fixpoint rate_limit_calls (times : list Z) (counters : gmap string (Z * option Z))
    (key : string) (limit window : Z)
    : list (bool * Z) * gmap string (Z * option Z) :=
  match times with
  | [] => ([], counters)
  | now :: later =>
      match increment_rate_limit true now counters key limit window with
      | Ok (is_allowed, current, counters') =>
          let '(answers, final) := rate_limit_calls later counters' key limit window in
          ((is_allowed, current) :: answers, final)
      | Raise _ => ([], counters)
      end
  end.

(** ** The read endpoints and rule management ([app/main.py]) *)

Module UserBalanceResponse.
Record t : Type := {
  user_id : string;
  balance : Q;
  currency : string;
}.
End UserBalanceResponse.

(** [SUM(amount)] over the approved rows of the user; SQL gives NULL for
    no row, which [or 0.0] turns into 0. *)
Definition approved_amounts (rows : list Transaction.t) (user_id : string) : list Q :=
  map Transaction.amount
    (List.filter (fun t => String.eqb (Transaction.user_id t) user_id &&
                           Transaction.is_approved t) rows).

Definition sum_amounts (amounts : list Q) : Q := fold_right Qplus 0%Q amounts.

Definition get_balance (up : bool) (w : World) (user_id : string)
    : result UserBalanceResponse.t :=
  if up then
    Ok {| UserBalanceResponse.user_id := user_id;
          UserBalanceResponse.balance := sum_amounts (approved_amounts (transactions w) user_id);
          UserBalanceResponse.currency := "USD" |}
  else Raise OperationalError.

(** [ORDER BY created_at DESC]; rows of equal time keep their table order. *)
Fixpoint insert_by_recency (t : Transaction.t) (l : list Transaction.t)
    : list Transaction.t :=
  match l with
  | [] => [t]
  | x :: l' =>
      if (Transaction.created_at x <=? Transaction.created_at t)%Z then t :: l
      else x :: insert_by_recency t l'
  end.

Definition most_recent_first (rows : list Transaction.t) : list Transaction.t :=
  foldr insert_by_recency [] rows.

Definition rows_of_user (rows : list Transaction.t) (user_id : string)
    : list Transaction.t :=
  List.filter (fun t => String.eqb (Transaction.user_id t) user_id) rows.

Module TransactionHistoryResponse.
(** The page holds the ledger rows; the endpoint renders each of them
    field by field. *)
Record t : Type := {
  transactions : list Transaction.t;
  total : Z;
  page : Z;
  page_size : Z;
}.
End TransactionHistoryResponse.

(** PostgreSQL refuses a negative [OFFSET] or [LIMIT]. *)
Definition get_transaction_history (up : bool) (w : World) (user_id : string)
    (page page_size : Z) : result TransactionHistoryResponse.t :=
  let offset := ((page - 1) * page_size)%Z in
  if negb up then Raise OperationalError
  else if (offset <? 0)%Z || (page_size <? 0)%Z then Raise OperationalError
  else
    let rows :=
      take (Z.to_nat page_size)
        (drop (Z.to_nat offset)
           (most_recent_first (rows_of_user (transactions w) user_id))) in
    let total := Z.of_nat (length (rows_of_user (transactions w) user_id)) in
    Ok {| TransactionHistoryResponse.transactions := rows;
          TransactionHistoryResponse.total := total;
          TransactionHistoryResponse.page := page;
          TransactionHistoryResponse.page_size := page_size |}.

Module RuleCreate.
Record t : Type := {
  rule_name : string;
  rule_condition : value;
  rule_actions : value;
  priority : Z;
  is_active : bool;
}.
End RuleCreate.

Definition with_fraud_rules (w : World) (rules : list FraudRule) : World :=
  {| redis_idempotency := redis_idempotency w;
     redis_user_profile := redis_user_profile w;
     idempotency_keys := idempotency_keys w;
     transactions := transactions w;
     users := users w;
     fraud_rules := rules;
     task_queue := task_queue w |}.

(** The body of [create_fraud_rule] for an authenticated caller;
    [next_id] is the key the database assigns.  [rule_name] is unique in
    the table, so the lookup finds at most one row. *)
Definition create_fraud_rule (up : bool) (next_id : Z) (w : World) (rule : RuleCreate.t)
    : result FraudRule * World :=
  if negb up then (Raise OperationalError, w) else
  match List.find (fun r => String.eqb (rule_name r) (RuleCreate.rule_name rule))
          (fraud_rules w) with
  | Some _ => (Raise (HTTPException 409), w)
  | None =>
      let db_rule :=
        {| id := next_id;
           rule_name := RuleCreate.rule_name rule;
           rule_condition := RuleCreate.rule_condition rule;
           rule_actions := RuleCreate.rule_actions rule;
           is_active := RuleCreate.is_active rule;
           priority := RuleCreate.priority rule |} in
      (Ok db_rule, with_fraud_rules w (fraud_rules w ++ [db_rule]))
  end.

(** A group [{logic, conditions}]. *)
Definition group (logic : string) (conditions : list value) : value :=
  VDict [("logic", VStr logic); ("conditions", VList conditions)].

(** An active rule whose action carries a risk_score that is no number. *)
Definition broken_rule : FraudRule :=
  {| id := 3; rule_name := "Broken";
     rule_condition := leaf (VStr "amount") (VStr ">") (VNum 0);
     rule_actions := VDict [("risk_score", VStr "high")];
     is_active := true; priority := 5 |}.

Definition broken_world : World :=
  with_fraud_rules empty_world [high_amount_rule; broken_rule].

(** An active rule whose condition names its field by a list. *)
Definition unreadable_rule : FraudRule :=
  {| id := 4; rule_name := "Unreadable";
     rule_condition := leaf (VList [VStr "amount"]) (VStr ">") (VNum 1);
     rule_actions := VDict [("risk_score", VNum 0.2)];
     is_active := true; priority := 5 |}.

(** A profile with history, and one whose average was stored as null. *)
Definition sample_profile : dict :=
  [ ("average_transaction_amount", VNum 50);
    ("transaction_count", VNum 10);
    ("home_location", VStr "New York, NY") ].

Definition null_average_profile : dict :=
  [ ("average_transaction_amount", VNone);
    ("transaction_count", VNum 10) ].

(** A stored response and a world whose table holds it, unexpired, for
    [sample_request]; Redis holds nothing. *)
Definition sample_response : TransactionResponse.t :=
  {| TransactionResponse.transaction_id := "5f0c1a8e-0000";
     TransactionResponse.status := "approved";
     TransactionResponse.is_fraud := false;
     TransactionResponse.risk_score := 0.3%R;
     TransactionResponse.rule_score := 0%R;
     TransactionResponse.ml_score := 0.5%R;
     TransactionResponse.message := "Transaction processed successfully";
     TransactionResponse.created_at := 500 |}.

Definition live_record : IdempotencyKey.t :=
  {| IdempotencyKey.idempotency_key := "test-key-123";
     IdempotencyKey.request_hash := sha256_json (Digest := sample_digest) sample_request;
     IdempotencyKey.response_data := Some sample_response;
     IdempotencyKey.expires_at := 2000 |}.

Definition live_world : World :=
  with_idempotency_keys empty_world {["test-key-123" := live_record]}.

(** Redis does not answer. *)
Definition redis_down_env : Env :=
  {| utcnow := 1000;
     database_now := 1001;
     uuid4 := "5f0c1a8e-0005";
     redis_up := fun _ => false;
     db_up := fun _ => true;
     decision_function := fun _ _ => Ok 0%R;
     elapsed_ms := 12;
     REDIS_TTL := 300 |}.

(** Forty minutes after [sample_env], when [live_record] has expired. *)
Definition much_later_env : Env :=
  {| utcnow := 3400;
     database_now := 3401;
     uuid4 := "5f0c1a8e-0006";
     redis_up := fun _ => true;
     db_up := fun _ => true;
     decision_function := fun _ _ => Ok 0%R;
     elapsed_ms := 12;
     REDIS_TTL := 300 |}.


(** A ledger with two approved rows of one user, a minute apart. *)
Definition ledger_row (transaction_id idempotency_key : string) (amount : Q)
    (created_at : Z) : Transaction.t :=
  {| Transaction.transaction_id := transaction_id;
     Transaction.user_id := "user123";
     Transaction.amount := amount;
     Transaction.currency := "USD";
     Transaction.location := None;
     Transaction.merchant_id := None;
     Transaction.card_number_hash := None;
     Transaction.transaction_type := "purchase";
     Transaction.rule_score := 0%R;
     Transaction.ml_score := 0.5%R;
     Transaction.final_risk_score := 0.3%R;
     Transaction.is_fraud := false;
     Transaction.is_approved := true;
     Transaction.idempotency_key := idempotency_key;
     Transaction.transaction_metadata := None;
     Transaction.created_at := created_at |}.

Definition ledger_world : World :=
  {| redis_idempotency := ∅;
     redis_user_profile := ∅;
     idempotency_keys := ∅;
     transactions := [ledger_row "5f0c1a8e-0010" "key-10" 25 900;
                      ledger_row "5f0c1a8e-0011" "key-11" 40 960];
     users := {["user123"]};
     fraud_rules := [high_amount_rule; any_amount_rule];
     task_queue := [] |}.
(** The sample request processed on the empty world, and the two retries
    a minute later under the same key: the same body, and another amount. *)
Definition first_run : Run :=
  process_transaction (H := sample_builtins) (H0 := sample_digest)
    sample_env empty_world sample_request.

Definition identical_retry : Run :=
  process_transaction (H := sample_builtins) (H0 := sample_digest)
    later_env (world first_run) sample_request.

Definition conflicting_retry : Run :=
  process_transaction (H := sample_builtins) (H0 := sample_digest)
    later_env (world first_run) conflicting_request.

(** The request with the other amount when the table holds the live
    record of [sample_request] under the key. *)
Definition seeded_conflict : Run :=
  process_transaction (H := sample_builtins) (H0 := sample_digest)
    sample_env live_world conflicting_request.

(** * Properties *)

(** ** Python comparisons *)

Lemma py_cmp_only_type_error (a : value) :
  ∀ b e, py_cmp a b = Raise e → e = TypeError.
Proof.
  induction a as [| ? | ? | ? | l IH | d IH] using value_nested_ind; intros v e.
  1-4, 6: destruct v; simpl;
    repeat match goal with
           | |- context [match ?x with _ => _ end] => destruct x
           end; congruence.
  destruct v as [| | | | m |]; simpl; try congruence.
  revert m. induction IH as [| x l Hx Hl IHl]; intros [| y m]; try congruence.
  destruct (py_eq x y); [apply IHl | apply Hx].
Qed.

(** ** Leaf predicates *)

Section ConditionProperties.
Context `{Builtins}.

Lemma ordering_only_type_error (a b : value) (e : exn) :
  py_lt a b = Raise e ∨ py_le a b = Raise e ∨
  py_gt a b = Raise e ∨ py_ge a b = Raise e → e = TypeError.
Proof.
  unfold py_lt, py_le, py_gt, py_ge, rbind.
  destruct (py_cmp a b) eqn:E.
  - intros [?|[?|[?|?]]]; discriminate.
  - pose proof (py_cmp_only_type_error _ _ _ E) as ->.
    intros [?|[?|[?|?]]]; congruence.
Qed.

Lemma operators_only_type_error (op : string) f (a b : value) (e : exn) :
  operator_lookup op operators = Some f → f a b = Raise e → e = TypeError.
Proof.
  unfold operators; simpl. intros Hlookup Hf.
  repeat match type of Hlookup with
         | context [String.eqb op ?k] => destruct (String.eqb op k)
         end;
    try discriminate Hlookup; injection Hlookup as <-;
    try discriminate Hf;
    try (eapply ordering_only_type_error; eauto; fail).
  - destruct b; discriminate.
  - destruct b; discriminate.
  - unfold str_contains in Hf. destruct a; try discriminate; destruct b; congruence.
Qed.

Lemma evaluate_condition_leaf (field operator rule_value : value)
    (transaction : gmap string value) :
  evaluate_condition (leaf field operator rule_value) transaction =
  if negb (hashable field) then Raise TypeError else
  match attribute field transaction with
  | None => Ok false
  | Some transaction_value =>
      match coerce rule_value transaction_value with
      | None => Ok false
      | Some transaction_value =>
          if negb (hashable operator) then Raise TypeError else
          match operator with
          | VStr op =>
              match operator_lookup op operators with
              | Some f =>
                  match f transaction_value rule_value with
                  | Ok b => Ok b
                  | Raise TypeError | Raise ValueError => Ok false
                  | Raise e => Raise e
                  end
              | None => Ok false
              end
          | _ => Ok false
          end
      end
  end.
Proof. reflexivity. Qed.

Lemma evaluate_condition_total (field operator rule_value : value)
    (transaction : gmap string value) :
  hashable field = true → hashable operator = true →
  ∃ b, evaluate_condition (leaf field operator rule_value) transaction = Ok b.
Proof.
  intros Hfield Hop. rewrite evaluate_condition_leaf, Hfield, Hop. cbn [negb].
  destruct (attribute field transaction) as [tv|]; [| by eexists].
  destruct (coerce rule_value tv) as [a|]; [| by eexists].
  destruct operator as [| | | op | |]; try (by eexists).
  destruct (operator_lookup op operators) as [f|] eqn:Hlookup; [| by eexists].
  destruct (f a rule_value) as [b|e] eqn:Hf; [by eexists |].
  rewrite (operators_only_type_error _ _ _ _ _ Hlookup Hf). by eexists.
Qed.

(** C7, as the code has it: a leaf predicate whose field and operator
    are hashable (strings, numbers, booleans, null) never raises; it is
    false when the field is absent, when a numeric rule value meets a
    string that does not parse as a number, when the operator's
    comparison raises on the operands, and for [in] with a comparison
    value that is not a list; [not_in] with a comparison value that is
    not a list is true whenever the field is present and the coercion
    succeeds. *)
Theorem evaluate_condition_degrades (field operator rule_value : value)
    (transaction : gmap string value) :
  hashable field = true → hashable operator = true →
  let condition := leaf field operator rule_value in
  (∃ b, evaluate_condition condition transaction = Ok b) ∧
  (attribute field transaction = None →
     evaluate_condition condition transaction = Ok false) ∧
  (∀ s, attribute field transaction = Some (VStr s) →
     is_number rule_value = true → float_of_str s = None →
     evaluate_condition condition transaction = Ok false) ∧
  (∀ tv a op f e,
     attribute field transaction = Some tv → coerce rule_value tv = Some a →
     operator = VStr op → operator_lookup op operators = Some f →
     f a rule_value = Raise e →
     evaluate_condition condition transaction = Ok false) ∧
  (operator = VStr "in" → is_list rule_value = false →
     evaluate_condition condition transaction = Ok false) ∧
  (operator = VStr "not_in" → is_list rule_value = false →
     ∀ tv a, attribute field transaction = Some tv → coerce rule_value tv = Some a →
     evaluate_condition condition transaction = Ok true).
Proof.
  intros Hfield Hop condition. subst condition.
  split; [by apply evaluate_condition_total |].
  rewrite evaluate_condition_leaf, Hfield, Hop. cbn [negb].
  repeat split.
  - by intros ->.
  - intros s -> Hnum Hparse. unfold coerce. by rewrite Hnum, Hparse.
  - intros tv a op f e Hattr Hcoerce -> Hlookup Hf.
    rewrite Hattr, Hcoerce, Hlookup, Hf.
    by pose proof (operators_only_type_error _ _ _ _ _ Hlookup Hf) as ->.
  - intros -> Hlist.
    destruct (attribute field transaction) as [tv|]; [| done].
    destruct (coerce rule_value tv) as [a|]; [| done].
    simpl. by destruct rule_value.
  - intros -> Hlist tv a -> ->. simpl. by destruct rule_value.
Qed.

End ConditionProperties.

Lemma evaluate_condition_degrades_witness :
  hashable (VStr "amount") = true ∧ hashable (VStr "not_in") = true ∧
  evaluate_condition (H := sample_builtins)
    (leaf (VStr "amount") (VStr "not_in") (VNum 5000)) sample_attributes = Ok true.
Proof.
  split; [reflexivity |]. split; [reflexivity |].
  refine (proj2 (proj2 (proj2 (proj2 (proj2
    (evaluate_condition_degrades (H := sample_builtins)
       (VStr "amount") (VStr "not_in") (VNum 5000) sample_attributes
       eq_refl eq_refl))))) eq_refl eq_refl (VNum 6000) (VNum 6000) _ _);
    reflexivity.
Defined.

(** C7, as stated, at a concrete input: [not_in] with the comparison
    value 5000, which is not a list, does not yield false. *)
Lemma not_in_scalar_is_not_false :
  is_list (VNum 5000) = false ∧
  evaluate_condition (H := sample_builtins)
    (leaf (VStr "amount") (VStr "not_in") (VNum 5000)) sample_attributes ≠ Ok false.
Proof. split; [reflexivity |]. vm_compute. discriminate. Qed.

(** ** The attributes the handler exposes to the rules *)

Section AttributeProperties.
Context `{Builtins}.

Lemma absent_field_is_false (field : string) (operator rule_value : value)
    (transaction : gmap string value) :
  transaction !! field = None →
  evaluate_condition (leaf (VStr field) operator rule_value) transaction = Ok false ∧
  evaluate_conditions (leaf (VStr field) operator rule_value) transaction = Ok false.
Proof.
  intros Hnone.
  assert (evaluate_condition (leaf (VStr field) operator rule_value) transaction
          = Ok false) as Hleaf.
  { rewrite evaluate_condition_leaf. cbn [hashable negb attribute]. by rewrite Hnone. }
  split; [exact Hleaf |].
  unfold evaluate_conditions. exact Hleaf.
Qed.

Lemma undocumented_attribute (txn : TransactionRequest.t) (field : string) :
  field ∈ ["currency"; "card_number_hash"; "idempotency_key"; "metadata"] →
  transaction_data txn !! field = None.
Proof.
  intros Hin. unfold transaction_data.
  repeat (apply elem_of_cons in Hin as [-> | Hin]; [by simplify_map_eq |]).
  by apply elem_of_nil in Hin.
Qed.

(** C10: the dictionary handed to the rule engine has exactly the keys
    amount, location, user_id, merchant_id and transaction_type; a leaf
    predicate over currency, card_number_hash, idempotency_key or
    metadata is false whatever its operator and value, alone or as the
    whole condition of a rule, and a rule with that condition leaves
    the engine's score, flags and triggered list as they were. *)
Theorem rules_see_five_attributes (txn : TransactionRequest.t) :
  dom (transaction_data txn) =
    ({["amount"; "location"; "user_id"; "merchant_id"; "transaction_type"]} : gset string) ∧
  Forall (fun field =>
    ∀ operator rule_value,
      evaluate_condition (leaf (VStr field) operator rule_value) (transaction_data txn)
        = Ok false ∧
      evaluate_conditions (leaf (VStr field) operator rule_value) (transaction_data txn)
        = Ok false ∧
      ∀ acc rule_id name actions active prio,
        apply_rule (transaction_data txn) acc
          {| id := rule_id; rule_name := name;
             rule_condition := leaf (VStr field) operator rule_value;
             rule_actions := actions; is_active := active; priority := prio |}
        = Ok acc)
    ["currency"; "card_number_hash"; "idempotency_key"; "metadata"].
Proof.
  split.
  - unfold transaction_data. rewrite !dom_insert_L, dom_empty_L. set_solver.
  - apply Forall_forall. intros field Hin operator rule_value.
    pose proof (undocumented_attribute txn field Hin) as Hnone.
    destruct (absent_field_is_false field operator rule_value _ Hnone) as [Hleaf Hcond].
    repeat split; [exact Hleaf | exact Hcond |].
    intros acc rule_id name actions active prio.
    unfold apply_rule. cbn [rule_condition]. by rewrite Hcond.
Qed.

End AttributeProperties.

(** ** Aggregation of the rule scores *)

Lemma py_cmp_numbers (a b : value) (x y : Q) :
  as_number a = Some x → as_number b = Some y → py_cmp a b = Ok (Qcompare x y).
Proof.
  intros Ha Hb.
  destruct a; try discriminate Ha; destruct b; try discriminate Hb;
    simpl in *; rewrite ?Ha, ?Hb;
    repeat match goal with
           | H : context [match ?c with true => _ | false => _ end] |- _ => destruct c
           end;
    congruence.
Qed.

Lemma maximum_le (l : list Q) : ∀ s b,
  (maximum s l <= b)%Q ↔ Forall (fun x => (x <= b)%Q) (s :: l).
Proof.
  induction l as [| x l IH]; intros s b; simpl.
  - rewrite Forall_singleton. reflexivity.
  - rewrite Q.max_lub_iff, IH, (Forall_cons _ s). reflexivity.
Qed.

Lemma clamp_le (m b : Q) :
  (clamp m <= b)%Q ↔ ((m <= b)%Q ∧ (0 <= b)%Q) ∨ (1 <= b)%Q.
Proof. unfold clamp. rewrite Q.min_le_iff, Q.max_lub_iff. reflexivity. Qed.

Lemma Qeq_by_upper_bounds (p q : Q) :
  (∀ b, (p <= b)%Q ↔ (q <= b)%Q) → (p == q)%Q.
Proof.
  intros Hb. apply Qle_antisym.
  - apply Hb, Qle_refl.
  - apply Hb, Qle_refl.
Qed.
Section AggregationProperties.
Context `{Builtins}.

Lemma higher_score_le (s q0 b : Q) :
  ((match Qcompare s q0 with Gt => s | _ => q0 end) <= b)%Q ↔ (q0 <= b)%Q ∧ (s <= b)%Q.
Proof.
  destruct (Qcompare s q0) eqn:E.
  - apply Qeq_alt in E. split; [intros; split; Lqa.lra | intros [? ?]; Lqa.lra].
  - apply Qlt_alt in E. split; [intros; split; Lqa.lra | intros [? ?]; Lqa.lra].
  - apply Qgt_alt in E. split; [intros; split; Lqa.lra | intros [? ?]; Lqa.lra].
Qed.

Lemma triggered_cons (transaction : gmap string value) (rule : FraudRule)
    (rules : list FraudRule) :
  triggered transaction (rule :: rules) =
  if triggers transaction rule then rule :: triggered transaction rules
  else triggered transaction rules.
Proof. reflexivity. Qed.

Lemma run_rules_spec (transaction : gmap string value) (rules : list FraudRule) :
  ∀ acc q0,
    Forall (fun rule => well_formed transaction rule = true) rules →
    as_number (rule_score acc) = Some q0 →
    ∃ acc' q',
      run_rules transaction acc rules = Ok acc' ∧
      as_number (rule_score acc') = Some q' ∧
      (∀ b, (q' <= b)%Q ↔
            (q0 <= b)%Q ∧ Forall (fun x => (x <= b)%Q) (triggered_scores transaction rules)) ∧
      flags acc' =
        flags acc ++ map rule_name (List.filter flag_action (triggered transaction rules)) ∧
      map triggered_name (triggered_rules acc') =
        map triggered_name (triggered_rules acc) ++ map rule_name (triggered transaction rules).
Proof.
  induction rules as [| rule rules IH]; intros acc q0 Hwf Hq0.
  - exists acc, q0. cbn. rewrite !app_nil_r.
    split; [done |]. split; [done |]. split; [| done].
    intros b. split; [intros; split; [done | constructor] | tauto].
  - apply Forall_cons in Hwf as [Hrule Hrules].
    unfold well_formed in Hrule. cbn [run_rules]. unfold apply_rule.
    unfold triggered_scores. rewrite triggered_cons. unfold triggers.
    destruct (evaluate_conditions (rule_condition rule) transaction) as [[|]|] eqn:Hcond;
      try discriminate; cbn [rbind]; [| apply (IH acc q0 Hrules Hq0)].
    destruct (risk_score_action rule) as [s|] eqn:Hrisk; [| discriminate].
    assert (∃ actions, actions_of rule = Ok actions ∧
              as_number (dict_get_default "risk_score" (VNum 0.5) actions) = Some s ∧
              flag_action rule = truthy (dict_get_default "flag" (VBool false) actions))
      as (actions & Hactions & Hs & Hflag).
    { unfold risk_score_action, flag_action in *.
      destruct (actions_of rule) as [actions|]; [| discriminate]. by exists actions. }
    rewrite Hactions. cbn [rbind].
    unfold py_gt. rewrite (py_cmp_numbers _ _ s q0 Hs Hq0). cbn [rbind].
    match goal with
    | |- context [run_rules transaction ?a rules] => set (acc1 := a)
    end.
    destruct (IH acc1 (match Qcompare s q0 with Gt => s | _ => q0 end) Hrules)
      as (acc' & q' & Hrun & Hnum & Hbound & Hflags & Hnames).
    { subst acc1. cbn. by destruct (Qcompare s q0). }
    exists acc', q'. split; [exact Hrun |]. split; [exact Hnum |].
    split; [| split].
    + intros b. rewrite Hbound, higher_score_le. cbn [map]. rewrite Hrisk.
      rewrite (Forall_cons _ s). fold (triggered_scores transaction rules). tauto.
    + rewrite Hflags. subst acc1. cbn [flags List.filter map]. rewrite Hflag.
      destruct (truthy (dict_get_default "flag" (VBool false) actions));
        cbn; by rewrite <- ?app_assoc.
    + rewrite Hnames. subst acc1. cbn. rewrite map_app. cbn. by rewrite <- app_assoc.
Qed.

Lemma capped_le (q b : Q) :
  ((match Qcompare 1 q with Lt => 1 | _ => q end) <= b)%Q ↔ (q <= b)%Q ∨ (1 <= b)%Q.
Proof.
  destruct (Qcompare 1 q) eqn:E.
  - apply Qeq_alt in E. split; [intros; left; Lqa.lra | intros [?|?]; Lqa.lra].
  - apply Qlt_alt in E. split; [intros; right; Lqa.lra | intros [?|?]; Lqa.lra].
  - apply Qgt_alt in E. split; [intros; left; Lqa.lra | intros [?|?]; Lqa.lra].
Qed.


End AggregationProperties.



(** The specification's aggregation example: two triggered rules with
    scores 0.5 and 0.9 give 0.9, not their sum. *)
Example two_triggered_rules_keep_the_higher_score :
  evaluate_transaction (H := sample_builtins) [any_amount_rule; high_amount_rule]
    sample_attributes
  = Ok {| rule_score := VNum 0.9;
          triggered_rules :=
            [ {| triggered_name := "Any Amount"; triggered_id := 2;
                 triggered_risk_score := VNum 0.5 |};
              {| triggered_name := "High Amount"; triggered_id := 1;
                 triggered_risk_score := VNum 0.9 |} ];
          flags := ["High Amount"] |}.
Proof. reflexivity. Qed.

Example amount_above_threshold :
  evaluate_condition (H := sample_builtins)
    (leaf (VStr "amount") (VStr ">") (VNum 5000)) sample_attributes = Ok true ∧
  evaluate_condition (H := sample_builtins)
    (leaf (VStr "amount") (VStr "<") (VNum 5000)) sample_attributes = Ok false ∧
  evaluate_condition (H := sample_builtins)
    (leaf (VStr "merchant_id") (VStr "==") (VStr "m1")) sample_attributes = Ok false.
Proof. repeat split; reflexivity. Qed.

(** Operands the operator is not defined on: a missing location compared
    with a number, a number compared with a string, a numeric needle for
    [contains], a string that is no number against a numeric rule value. *)
Example type_mismatches_are_false :
  evaluate_condition (H := sample_builtins)
    (leaf (VStr "location") (VStr "<") (VNum 5))
    (<["location" := VNone]> sample_attributes) = Ok false ∧
  evaluate_condition (H := sample_builtins)
    (leaf (VStr "amount") (VStr ">=") (VStr "high")) sample_attributes = Ok false ∧
  evaluate_condition (H := sample_builtins)
    (leaf (VStr "location") (VStr "contains") (VNum 7)) sample_attributes = Ok false ∧
  evaluate_condition (H := sample_builtins)
    (leaf (VStr "location") (VStr "==") (VNum 7)) sample_attributes = Ok false ∧
  evaluate_condition (H := sample_builtins)
    (leaf (VStr "amount") (VStr "in") (VNum 6000)) sample_attributes = Ok false.
Proof. repeat split; reflexivity. Qed.

Example rules_are_loaded_by_priority :
  load_rules [any_amount_rule; high_amount_rule] = [high_amount_rule; any_amount_rule].
Proof. reflexivity. Qed.

(** Outside the hashable fields the interpreter does raise. *)
Example unhashable_field_raises :
  evaluate_condition (H := sample_builtins)
    (leaf (VList [VStr "amount"]) (VStr "==") (VNum 1)) sample_attributes = Raise TypeError.
Proof. reflexivity. Qed.

(** ** Scores and their bounds *)

Lemma in_unit_interval_true (x : R) :
  in_unit_interval x = true ↔ (0 <= x <= 1)%R.
Proof.
  unfold in_unit_interval.
  destruct (Rle_dec 0 x), (Rle_dec x 1); split; intros; try done; Lra.lra.
Qed.

Lemma sigmoid_bounds (d : R) : (0 <= 1 / (1 + exp d) <= 1)%R.
Proof.
  pose proof (exp_pos d) as Hexp.
  assert (0 < 1 + exp d)%R as Hpos by Lra.lra.
  split.
  - apply Rlt_le, Rdiv_lt_0_compat; Lra.lra.
  - apply (Rmult_le_reg_r (1 + exp d)); [exact Hpos |].
    unfold Rdiv. rewrite Rmult_assoc, Rinv_l; Lra.lra.
Qed.

Lemma score_transaction_bounds (decision : result R) (ml_score : R) :
  score_transaction decision = Ok ml_score → (0 <= ml_score <= 1)%R.
Proof.
  unfold score_transaction, rbind. destruct decision as [d|]; [| discriminate].
  intros [= <-]. apply sigmoid_bounds.
Qed.

Lemma final_risk_score_bounds (rule_score ml_score : R) :
  (0 <= rule_score <= 1)%R → (0 <= ml_score <= 1)%R →
  (0 <= final_risk_score rule_score ml_score <= 1)%R.
Proof. unfold final_risk_score. intros. Lra.lra. Qed.

Lemma Q2R_unit_interval (q : Q) :
  (0 <= q)%Q → (q <= 1)%Q → (0 <= Q2R q <= 1)%R.
Proof.
  intros H0 H1. apply Qle_Rle in H0, H1.
  rewrite RMicromega.Q2R_0 in H0. rewrite RMicromega.Q2R_1 in H1. Lra.lra.
Qed.

Lemma py_cmp_against_number (a b : value) (y : Q) (c : comparison) :
  as_number b = Some y → py_cmp a b = Ok c →
  ∃ x, as_number a = Some x ∧ c = Qcompare x y.
Proof.
  intros Hb Hc.
  destruct (as_number a) as [x|] eqn:Ha.
  - exists x. rewrite (py_cmp_numbers a b x y Ha Hb) in Hc. by injection Hc as <-.
  - destruct a; try discriminate Ha; destruct b; try discriminate Hb;
      simpl in Hc; try discriminate Hc;
      repeat match type of Hc with
             | context [match ?c with true => _ | false => _ end] => destruct c
             end; discriminate.
Qed.

Section ScoreProperties.
Context `{Builtins}.

Lemma run_rules_score_nonnegative (transaction : gmap string value)
    (rules : list FraudRule) :
  ∀ acc acc' q0,
    as_number (rule_score acc) = Some q0 → (0 <= q0)%Q →
    run_rules transaction acc rules = Ok acc' →
    ∃ q, as_number (rule_score acc') = Some q ∧ (0 <= q)%Q.
Proof.
  induction rules as [| rule rules IH]; intros acc acc' q0 Hnum Hpos Hrun.
  - injection Hrun as <-. by exists q0.
  - cbn [run_rules] in Hrun.
    destruct (apply_rule transaction acc rule) as [acc1|] eqn:Hstep; [| discriminate].
    cbn [rbind] in Hrun. unfold apply_rule in Hstep.
    destruct (evaluate_conditions (rule_condition rule) transaction) as [[|]|];
      try discriminate; cbn [rbind] in Hstep.
    + destruct (actions_of rule) as [actions|]; [| discriminate]. cbn [rbind] in Hstep.
      unfold py_gt in Hstep.
      destruct (py_cmp (dict_get_default "risk_score" (VNum 0.5) actions) (rule_score acc))
        as [c|] eqn:Hcmp; [| discriminate].
      destruct (py_cmp_against_number _ _ q0 c Hnum Hcmp) as (s & Hs & ->).
      cbn [rbind] in Hstep. injection Hstep as <-.
      destruct (Qcompare s q0) eqn:E.
      * eapply IH; [| exact Hpos | exact Hrun]. exact Hnum.
      * eapply IH; [| exact Hpos | exact Hrun]. exact Hnum.
      * apply Qgt_alt in E. eapply (IH _ _ s); [| | exact Hrun]; [exact Hs | Lqa.lra].
    + injection Hstep as <-. by eapply IH.
Qed.

Lemma run_rules_returns_well_formed (transaction : gmap string value)
    (rules : list FraudRule) :
  ∀ acc acc' q0,
    as_number (rule_score acc) = Some q0 →
    run_rules transaction acc rules = Ok acc' →
    Forall (fun rule => well_formed transaction rule = true) rules.
Proof.
  induction rules as [| rule rules IH]; intros acc acc' q0 Hnum Hrun; [constructor |].
  cbn [run_rules] in Hrun.
  destruct (apply_rule transaction acc rule) as [acc1|] eqn:Hstep; [| discriminate].
  cbn [rbind] in Hrun. unfold apply_rule in Hstep.
  apply Forall_cons. unfold well_formed at 1.
  destruct (evaluate_conditions (rule_condition rule) transaction) as [[|]|];
    try discriminate; cbn [rbind] in Hstep.
  - unfold risk_score_action.
    destruct (actions_of rule) as [actions|]; [| discriminate]. cbn [rbind] in Hstep.
    unfold py_gt in Hstep.
    destruct (py_cmp (dict_get_default "risk_score" (VNum 0.5) actions) (rule_score acc))
      as [c|] eqn:Hcmp; [| discriminate].
    destruct (py_cmp_against_number _ _ q0 c Hnum Hcmp) as (s & Hs & ->).
    cbn [rbind] in Hstep. injection Hstep as <-. rewrite Hs.
    split; [done |].
    eapply (IH _ acc' (match Qcompare s q0 with Gt => s | _ => q0 end)); [| exact Hrun].
    cbn. by destruct (Qcompare s q0).
  - injection Hstep as <-. split; [done |]. by eapply IH.
Qed.

(** The engine returns exactly on the rule sets it can process. *)
Lemma evaluate_transaction_returns_iff (rules : list FraudRule)
    (transaction : gmap string value) :
  is_ok (evaluate_transaction rules transaction) = true ↔
  Forall (fun rule => well_formed transaction rule = true) rules.
Proof.
  split.
  - unfold evaluate_transaction. intros Hok.
    destruct (run_rules transaction _ rules) as [acc|] eqn:Hloop; [| discriminate].
    exact (run_rules_returns_well_formed transaction rules
             {| rule_score := VNum 0; triggered_rules := []; flags := [] |} acc 0%Q
             eq_refl Hloop).
  - intros Hwf.
    destruct (run_rules_spec transaction rules
                {| rule_score := VNum 0; triggered_rules := []; flags := [] |} 0%Q Hwf eq_refl)
      as (acc & q' & Hrun & Hnum & _).
    unfold evaluate_transaction. rewrite Hrun. cbn [rbind]. unfold py_min, py_lt.
    by rewrite (py_cmp_numbers (VNum 1) (rule_score acc) 1%Q q' eq_refl Hnum).
Qed.

Lemma evaluate_transaction_score_bounds (rules : list FraudRule)
    (transaction : gmap string value) (res : RuleResult) :
  evaluate_transaction rules transaction = Ok res →
  ∃ q, as_number (rule_score res) = Some q ∧ (0 <= q)%Q ∧ (q <= 1)%Q.
Proof.
  unfold evaluate_transaction. intros Hrun.
  destruct (run_rules transaction _ rules) as [acc|] eqn:Hloop; [| discriminate].
  cbn [rbind] in Hrun.
  destruct (run_rules_score_nonnegative transaction rules
              {| rule_score := VNum 0; triggered_rules := []; flags := [] |} acc 0%Q
              eq_refl (Qle_refl 0) Hloop)
    as (q & Hq & Hpos).
  unfold py_min, py_lt in Hrun.
  rewrite (py_cmp_numbers (VNum 1) (rule_score acc) 1%Q q eq_refl Hq) in Hrun.
  cbn [rbind] in Hrun. injection Hrun as <-. cbn [rule_score].
  destruct (Qcompare 1 q) eqn:E.
  - apply Qeq_alt in E. exists q. split; [done |]. split; [done | Lqa.lra].
  - exists 1%Q. split; [done |]. split; Lqa.lra.
  - apply Qgt_alt in E. exists q. split; [done |]. split; [done | Lqa.lra].
Qed.

Lemma evaluate_rules_score_bounds (env : Env) (w : World) (data : gmap string value) :
  ∃ q, as_number (fst (evaluate_rules env w data)) = Some q ∧ (0 <= q)%Q ∧ (q <= 1)%Q.
Proof.
  unfold evaluate_rules.
  destruct (if db_up env Evaluate then _ else _) as [res|] eqn:Hres.
  - destruct (db_up env Evaluate); [| discriminate].
    exact (evaluate_transaction_score_bounds _ _ _ Hres).
  - exists 0%Q. split; [done |]. split; Lqa.lra.
Qed.

End ScoreProperties.

(** ** The fresh path of the handler *)

Section HandlerProperties.
Context `{Builtins} `{Digest}.

Lemma persist_unavailable (env : Env) (w : World) (row : Transaction.t) :
  db_up env Persist = false →
  persist env w row = (utcnow env, w, [DatabaseUnavailable OperationalError]).
Proof. intros Hdown. unfold persist. by rewrite Hdown. Qed.

Lemma persist_timestamp (env : Env) (w : World) (row : Transaction.t) :
  fst (fst (persist env w row)) = utcnow env ∨
  fst (fst (persist env w row)) = database_now env.
Proof.
  unfold persist. destruct (negb (db_up env Persist)); [by left |].
  destruct (_ && _); [by right | by left].
Qed.

(** When the idempotency check yields nothing to replay and the model
    answers, the handler reaches line 292 with the response it built. *)
Lemma process_fresh (env : Env) (w : World) (txn : TransactionRequest.t)
    (w1 : World) (log1 : list warning) (d : R) :
  resolve_idempotency env w txn = (None, w1, log1) →
  decision_function env (transaction_data txn) (fst (fst (load_profile env w1 txn))) = Ok d →
  ∃ q r,
    answer (process_transaction env w txn) = Processed r ∧
    as_number (fst (evaluate_rules env (snd (fst (load_profile env w1 txn)))
                      (transaction_data txn))) = Some q ∧
    (0 <= q)%Q ∧ (q <= 1)%Q ∧
    TransactionResponse.transaction_id r = uuid4 env ∧
    TransactionResponse.rule_score r = Q2R q ∧
    TransactionResponse.ml_score r = (1 / (1 + exp d))%R ∧
    TransactionResponse.risk_score r = final_risk_score (Q2R q) (1 / (1 + exp d)) ∧
    TransactionResponse.is_fraud r = is_fraud (TransactionResponse.risk_score r) ∧
    TransactionResponse.status r =
      (if is_approved (TransactionResponse.risk_score r) then "approved" else "declined") ∧
    (db_up env Persist = false →
       TransactionResponse.created_at r = utcnow env ∧
       DatabaseUnavailable OperationalError ∈ log (process_transaction env w txn)) ∧
    (TransactionResponse.created_at r = utcnow env ∨
     TransactionResponse.created_at r = database_now env) ∧
    (∀ wn, wn ∈ log1 → wn ∈ log (process_transaction env w txn)).
Proof.
  intros Hmiss Hmodel. unfold process_transaction. rewrite Hmiss.
  destruct (load_profile env w1 txn) as [[user_profile w2] log2]. cbn [fst snd] in *.
  destruct (evaluate_rules_score_bounds env w2 (transaction_data txn)) as (q & Hq & Hq0 & Hq1).
  destruct (evaluate_rules env w2 (transaction_data txn)) as [rule_value log3].
  cbn [fst] in Hq. unfold score_transaction. rewrite Hmodel. cbn [rbind]. rewrite Hq.
  pose proof (Q2R_unit_interval q Hq0 Hq1) as Hrule.
  pose proof (sigmoid_bounds d) as Hml.
  pose proof (final_risk_score_bounds _ _ Hrule Hml) as Hfinal.
  match goal with
  | |- context [persist env w2 ?row] =>
      pose proof (persist_unavailable env w2 row) as Hdown;
      pose proof (persist_timestamp env w2 row) as Hstamp;
      destruct (persist env w2 row) as [[created w3] log4]
  end.
  cbn [fst] in Hstamp.
  match goal with
  | |- context [validate_response ?r] =>
      assert (validate_response r = true) as ->
  end.
  { unfold validate_response. cbn.
    rewrite !(proj2 (in_unit_interval_true _)); done. }
  cbn [negb].
  destruct (store_idempotency_key env w3 _ txn _ 24) as [[?|?] w4]; cbn [answer];
    exists q; eexists; (split; [reflexivity |]); cbn;
    (split; [done |]); (split; [done |]); (split; [done |]);
    (split; [done |]); (split; [done |]); (split; [done |]);
    (split; [done |]); (split; [done |]); (split; [done |]);
    (split; [| split; [done |]]);
    [ intros Hoff; injection (Hdown Hoff) as -> _ ->;
      (split; [done |]); rewrite !elem_of_app; do 3 right; left; constructor
    | intros wn Hwn; rewrite elem_of_app; by left
    | intros Hoff; injection (Hdown Hoff) as -> _ ->;
      (split; [done |]); rewrite !elem_of_app; do 3 right; left; constructor
    | intros wn Hwn; rewrite elem_of_app; by left ].
Qed.

End HandlerProperties.

(** ** Decision fusion *)

Lemma is_fraud_true (f : R) : is_fraud f = true ↔ (f > 0.7)%R.
Proof. unfold is_fraud. destruct (Rgt_dec f 0.7); split; intros; done. Qed.

Lemma is_approved_true (f : R) : is_approved f = true ↔ (f < 0.8)%R.
Proof. unfold is_approved. destruct (Rlt_dec f 0.8); split; intros; done. Qed.

Lemma is_fraud_false (f : R) : is_fraud f = false ↔ (f <= 0.7)%R.
Proof.
  unfold is_fraud. destruct (Rgt_dec f 0.7); split; intros; try done; Lra.lra.
Qed.

Lemma is_approved_false (f : R) : is_approved f = false ↔ (0.8 <= f)%R.
Proof.
  unfold is_approved. destruct (Rlt_dec f 0.8); split; intros; try done; Lra.lra.
Qed.

Section FusionProperties.
Context `{Builtins} `{Digest}.

(** What a response that left line 292 looks like. *)
Lemma processed_response (env : Env) (w : World) (txn : TransactionRequest.t)
    (r : TransactionResponse.t) :
  answer (process_transaction env w txn) = Processed r →
  TransactionResponse.transaction_id r = uuid4 env ∧
  TransactionResponse.risk_score r =
    final_risk_score (TransactionResponse.rule_score r) (TransactionResponse.ml_score r) ∧
  TransactionResponse.is_fraud r = is_fraud (TransactionResponse.risk_score r) ∧
  TransactionResponse.status r =
    (if is_approved (TransactionResponse.risk_score r) then "approved" else "declined") ∧
  validate_response r = true.
Proof.
  unfold process_transaction.
  destruct (resolve_idempotency env w txn) as [[[cached|] w1] log1]; [discriminate |].
  destruct (load_profile env w1 txn) as [[user_profile w2] log2].
  destruct (evaluate_rules env w2 (transaction_data txn)) as [rule_value log3].
  destruct (score_transaction _) as [ml|]; [| discriminate].
  destruct (as_number rule_value) as [q|]; [| discriminate].
  destruct (persist env w2 _) as [[created w3] log4].
  destruct (validate_response _) eqn:Hvalid; cbn [negb]; [| discriminate].
  destruct (store_idempotency_key env w3 _ txn _ 24) as [[?|?] w4]; cbn [answer];
    intros [= <-]; cbn; by rewrite Hvalid.
Qed.

(** C4: a submission that misses the idempotency store and is scored by
    the model is answered with a final score equal to
    rule score * 0.4 + model score * 0.6, and the final, rule and model
    scores all lie in [0,1]. *)
Theorem fusion_of_scored_transaction (env : Env) (w : World) (txn : TransactionRequest.t)
    (w1 : World) (log1 : list warning) (d : R) :
  resolve_idempotency env w txn = (None, w1, log1) →
  decision_function env (transaction_data txn) (fst (fst (load_profile env w1 txn))) = Ok d →
  ∃ r,
    answer (process_transaction env w txn) = Processed r ∧
    TransactionResponse.risk_score r =
      (TransactionResponse.rule_score r * 0.4 + TransactionResponse.ml_score r * 0.6)%R ∧
    (0 <= TransactionResponse.risk_score r <= 1)%R ∧
    (0 <= TransactionResponse.rule_score r <= 1)%R ∧
    (0 <= TransactionResponse.ml_score r <= 1)%R.
Proof.
  intros Hmiss Hmodel.
  destruct (process_fresh env w txn w1 log1 d Hmiss Hmodel)
    as (q & r & Hr & _ & Hq0 & Hq1 & _ & Hrule & Hml & Hrisk & _).
  exists r. split; [exact Hr |].
  pose proof (Q2R_unit_interval q Hq0 Hq1) as Hrule_bounds.
  pose proof (sigmoid_bounds d) as Hml_bounds.
  rewrite Hrisk, Hrule, Hml. split; [reflexivity |].
  split; [by apply final_risk_score_bounds |]. done.
Qed.

(** C5: in every fresh response the fraud flag is set exactly when the
    final score exceeds 0.7 and the status is approved exactly when it is
    below 0.8; the two tests are independent: 0.75 gives fraud and
    approved, 0.9 fraud and declined, 0.5 no fraud and approved. *)
Theorem decision_bands (env : Env) (w : World) (txn : TransactionRequest.t)
    (r : TransactionResponse.t) :
  answer (process_transaction env w txn) = Processed r →
  (TransactionResponse.is_fraud r = true ↔ (TransactionResponse.risk_score r > 0.7)%R) ∧
  (TransactionResponse.status r = "approved" ↔ (TransactionResponse.risk_score r < 0.8)%R) ∧
  (is_fraud 0.75 = true ∧ is_approved 0.75 = true) ∧
  (is_fraud 0.9 = true ∧ is_approved 0.9 = false) ∧
  (is_fraud 0.5 = false ∧ is_approved 0.5 = true).
Proof.
  intros Hr.
  destruct (processed_response env w txn r Hr) as (_ & _ & Hfraud & Hstatus & _).
  split; [rewrite Hfraud; apply is_fraud_true |].
  split.
  { rewrite Hstatus, <- is_approved_true.
    destruct (is_approved (TransactionResponse.risk_score r)); split; intros; done. }
  repeat split;
    first [ apply is_fraud_true | apply is_approved_true
          | apply is_fraud_false | apply is_approved_false ]; Lra.lra.
Qed.

End FusionProperties.

(** ** Idempotency *)

Section IdempotencyProperties.
Context `{Builtins} `{Digest}.

(** A live, valid cache entry under the request's key is replayed, whatever
    the request body: the body is not compared on this path. *)
Lemma cached_key_is_replayed (env : Env) (w : World) (txn : TransactionRequest.t)
    (r : TransactionResponse.t) (expiry : Z) :
  redis_up env IdempotencyCheck = true →
  redis_idempotency w !! TransactionRequest.idempotency_key txn = Some (Some r, expiry) →
  (utcnow env < expiry)%Z →
  validate_response r = true →
  process_transaction env w txn = {| answer := Replayed r; world := w; log := [] |}.
Proof.
  intros Hup Hentry Hlive Hvalid.
  unfold process_transaction, resolve_idempotency, check_idempotency_key,
    get_idempotency_response, redis_get.
  rewrite Hup, Hentry. apply Z.ltb_lt in Hlive. rewrite Hlive. cbn [rbind].
  by rewrite Hvalid.
Qed.

End IdempotencyProperties.

(** ** Which warnings each phase can print, and which tables it touches *)

Section PhaseProperties.
Context `{Builtins} `{Digest}.

Lemma resolve_idempotency_log (env : Env) (w : World) (txn : TransactionRequest.t) :
  existsb store_failed (snd (resolve_idempotency env w txn)) = false.
Proof.
  unfold resolve_idempotency.
  destruct (check_idempotency_key env w _ txn) as [[[cached|]|e] w'];
    [destruct (validate_response cached) | |]; reflexivity.
Qed.

Lemma load_profile_frame (env : Env) (w : World) (txn : TransactionRequest.t) :
  idempotency_keys (snd (fst (load_profile env w txn))) = idempotency_keys w ∧
  existsb store_failed (snd (load_profile env w txn)) = false.
Proof.
  unfold load_profile, get_user_profile, set_user_profile, redis_get, redis_setex.
  destruct (redis_up env ProfileLookup); cbn [rbind].
  - destruct (redis_user_profile w !! _) as [[p expiry]|];
      [destruct (utcnow env <? expiry)%Z; [destruct p |] |]; by split.
  - by split.
Qed.

Lemma evaluate_rules_log (env : Env) (w : World) (data : gmap string value) :
  existsb store_failed (snd (evaluate_rules env w data)) = false.
Proof.
  unfold evaluate_rules. by destruct (if db_up env Evaluate then _ else _).
Qed.

Lemma persist_frame (env : Env) (w : World) (row : Transaction.t) :
  idempotency_keys (snd (fst (persist env w row))) = idempotency_keys w ∧
  existsb store_failed (snd (persist env w row)) = false.
Proof.
  unfold persist. destruct (negb (db_up env Persist)); [by split |].
  destruct (_ && _); by split.
Qed.

(** The conflict raised by the check is printed and the request is
    processed as if the key were new. *)
Lemma swallowed_conflict (env : Env) (w : World) (txn : TransactionRequest.t)
    (record : IdempotencyKey.t) :
  get_idempotency_response (redis_up env IdempotencyCheck) (utcnow env) w
    (TransactionRequest.idempotency_key txn) = Ok None →
  db_up env IdempotencyCheck = true →
  idempotency_keys w !! TransactionRequest.idempotency_key txn = Some record →
  IdempotencyKey.request_hash record ≠ generate_request_hash txn →
  check_idempotency_key env w (TransactionRequest.idempotency_key txn) txn
    = (Raise (HTTPException 409), w) ∧
  resolve_idempotency env w txn = (None, w, [IdempotencyCheckFailed (HTTPException 409)]).
Proof.
  intros Hcache Hdb Hrecord Hhash.
  assert (check_idempotency_key env w (TransactionRequest.idempotency_key txn) txn
          = (Raise (HTTPException 409), w)) as Hcheck.
  { unfold check_idempotency_key. rewrite Hcache, Hdb, Hrecord. cbn [negb].
    apply String.eqb_neq in Hhash. by rewrite Hhash. }
  split; [exact Hcheck |]. unfold resolve_idempotency. by rewrite Hcheck.
Qed.

(** No path of the handler lets the conflict of the check reach the
    caller: unless the scorer itself raises one, the status is never 409. *)
Lemma handler_never_reports_conflict (env : Env) (w : World) (txn : TransactionRequest.t) :
  (∀ data profile, decision_function env data profile ≠ Raise (HTTPException 409)) →
  http_status (answer (process_transaction env w txn)) ≠ 409%nat.
Proof.
  intros Hmodel. unfold process_transaction.
  destruct (resolve_idempotency env w txn) as [[[cached|] w1] log1]; [done |].
  destruct (load_profile env w1 txn) as [[user_profile w2] log2].
  destruct (evaluate_rules env w2 (transaction_data txn)) as [rule_value log3].
  unfold score_transaction.
  destruct (decision_function env (transaction_data txn) user_profile) as [d|e] eqn:Hd;
    cbn [rbind].
  - destruct (as_number rule_value) as [q|]; [| done].
    destruct (persist env w2 _) as [[created w3] log4].
    destruct (negb (validate_response _)); [done |].
    by destruct (store_idempotency_key env w3 _ txn _ 24) as [[?|?] w4].
  - cbn [answer http_status]. destruct e; try done.
    intros ->. by apply (Hmodel _ _ Hd).
Qed.

(** An exception of the scorer leaves the handler. *)
Lemma scorer_failure_crashes (env : Env) (w : World) (txn : TransactionRequest.t)
    (w1 : World) (log1 : list warning) (e : exn) :
  resolve_idempotency env w txn = (None, w1, log1) →
  decision_function env (transaction_data txn) (fst (fst (load_profile env w1 txn)))
    = Raise e →
  answer (process_transaction env w txn) = Crashed e.
Proof.
  intros Hmiss Hmodel. unfold process_transaction. rewrite Hmiss.
  destruct (load_profile env w1 txn) as [[user_profile w2] log2]. cbn [fst] in Hmodel.
  destruct (evaluate_rules env w2 (transaction_data txn)) as [rule_value log3].
  unfold score_transaction. by rewrite Hmodel.
Qed.

(** The sibling path: a failure of the rule engine is replaced by 0. *)
Lemma rule_engine_failure_is_neutral (env : Env) (w : World) (data : gmap string value) :
  db_up env Evaluate = false →
  evaluate_rules env w data = (VNum 0, [RuleEngineFailed OperationalError]).
Proof. intros Hdown. unfold evaluate_rules. by rewrite Hdown. Qed.

(** An expired record whose hash matches is a miss and is deleted. *)
Lemma expired_matching_record_is_miss (env : Env) (w : World) (txn : TransactionRequest.t)
    (record : IdempotencyKey.t) :
  get_idempotency_response (redis_up env IdempotencyCheck) (utcnow env) w
    (TransactionRequest.idempotency_key txn) = Ok None →
  db_up env IdempotencyCheck = true →
  idempotency_keys w !! TransactionRequest.idempotency_key txn = Some record →
  IdempotencyKey.request_hash record = generate_request_hash txn →
  (IdempotencyKey.expires_at record <= utcnow env)%Z →
  check_idempotency_key env w (TransactionRequest.idempotency_key txn) txn
    = (Ok None,
       with_idempotency_keys w
         (delete (TransactionRequest.idempotency_key txn) (idempotency_keys w))).
Proof.
  intros Hcache Hdb Hrecord Hhash Hexpired.
  unfold check_idempotency_key. rewrite Hcache, Hdb, Hrecord, Hhash. cbn [negb].
  rewrite String.eqb_refl. apply Z.ltb_ge in Hexpired. by rewrite Hexpired.
Qed.

(** C9: when the request reaches the persist step and the database does
    not answer there, the handler still returns a 200 response; its
    creation timestamp is the application's own clock and the failure is
    only printed. *)
Theorem persistence_failure_is_not_surfaced (env : Env) (w : World)
    (txn : TransactionRequest.t) (w1 : World) (log1 : list warning) (d : R) :
  resolve_idempotency env w txn = (None, w1, log1) →
  decision_function env (transaction_data txn) (fst (fst (load_profile env w1 txn))) = Ok d →
  db_up env Persist = false →
  ∃ r,
    answer (process_transaction env w txn) = Processed r ∧
    http_status (answer (process_transaction env w txn)) = 200%nat ∧
    TransactionResponse.created_at r = utcnow env ∧
    DatabaseUnavailable OperationalError ∈ log (process_transaction env w txn).
Proof.
  intros Hmiss Hmodel Hdown.
  destruct (process_fresh env w txn w1 log1 d Hmiss Hmodel)
    as (q & r & Hr & _ & _ & _ & _ & _ & _ & _ & _ & _ & Hlocal & _ & _).
  destruct (Hlocal Hdown) as [Hstamp Hlogged].
  exists r. rewrite Hr. by repeat split.
Qed.

End PhaseProperties.


(** ** The properties on the sample data *)

Lemma sample_request_misses :
  resolve_idempotency (H0 := sample_digest) sample_env empty_world sample_request
  = (None, empty_world, []).
Proof. vm_compute. reflexivity. Qed.

Lemma fusion_of_scored_transaction_witness :
  ∃ r,
    answer (process_transaction (H := sample_builtins) (H0 := sample_digest)
              sample_env empty_world sample_request) = Processed r ∧
    TransactionResponse.risk_score r =
      (TransactionResponse.rule_score r * 0.4 + TransactionResponse.ml_score r * 0.6)%R ∧
    (0 <= TransactionResponse.risk_score r <= 1)%R ∧
    (0 <= TransactionResponse.rule_score r <= 1)%R ∧
    (0 <= TransactionResponse.ml_score r <= 1)%R.
Proof.
  apply (fusion_of_scored_transaction (H := sample_builtins) (H0 := sample_digest)
           sample_env empty_world sample_request empty_world [] 0%R).
  - vm_compute. reflexivity.
  - reflexivity.
Defined.

Lemma decision_bands_witness :
  ∃ r,
    answer (process_transaction (H := sample_builtins) (H0 := sample_digest)
              sample_env empty_world sample_request) = Processed r ∧
    (TransactionResponse.is_fraud r = true ↔ (TransactionResponse.risk_score r > 0.7)%R) ∧
    (TransactionResponse.status r = "approved" ↔ (TransactionResponse.risk_score r < 0.8)%R).
Proof.
  destruct (process_fresh (H := sample_builtins) (H0 := sample_digest)
              sample_env empty_world sample_request empty_world [] 0%R
              sample_request_misses eq_refl) as (q & r & Hr & _).
  exists r. split; [exact Hr |].
  destruct (decision_bands (H := sample_builtins) (H0 := sample_digest)
              sample_env empty_world sample_request r Hr) as (Hfraud & Hstatus & _).
  split; [exact Hfraud | exact Hstatus].
Defined.

Lemma persistence_failure_is_not_surfaced_witness :
  ∃ r,
    answer (process_transaction (H := sample_builtins) (H0 := sample_digest)
              database_down_env empty_world sample_request) = Processed r ∧
    TransactionResponse.created_at r = 1000%Z.
Proof.
  destruct (persistence_failure_is_not_surfaced (H := sample_builtins) (H0 := sample_digest)
              database_down_env empty_world sample_request empty_world
              [IdempotencyCheckFailed OperationalError] 0%R)
    as (r & Hr & _ & Hstamp & _).
  - vm_compute. reflexivity.
  - reflexivity.
  - reflexivity.
  - exists r. split; [exact Hr | exact Hstamp].
Defined.

(** C3 on the code: when the scorer raises, the request ends with that
    exception, a 500, and no decision. *)
Theorem scorer_failure_is_a_crash :
  answer (process_transaction (H := sample_builtins) (H0 := sample_digest)
            model_down_env empty_world sample_request) = Crashed ModelUnavailable ∧
  http_status
    (answer (process_transaction (H := sample_builtins) (H0 := sample_digest)
               model_down_env empty_world sample_request)) = 500%nat.
Proof.
  assert (answer (process_transaction (H := sample_builtins) (H0 := sample_digest)
                    model_down_env empty_world sample_request) = Crashed ModelUnavailable)
    as Hcrash.
  { apply (scorer_failure_crashes (H := sample_builtins) (H0 := sample_digest)
             model_down_env empty_world sample_request empty_world []);
      [by vm_compute | reflexivity]. }
  split; [exact Hcrash |]. by rewrite Hcrash.
Qed.

(** C8 on the code: the record expired at 900 and the request arrives at
    1060 with another body; the check raises the conflict.  With the body
    the record was written for, the same record is a miss and is deleted. *)
Theorem expired_record_with_other_hash_conflicts :
  (IdempotencyKey.expires_at stale_record < utcnow later_env)%Z ∧
  check_idempotency_key (H := sample_digest) later_env stale_world
    "test-key-123" conflicting_request
    = (Raise (HTTPException 409), stale_world) ∧
  check_idempotency_key (H := sample_digest) later_env stale_world
    "test-key-123" sample_request
    = (Ok None, empty_world).
Proof. repeat split; vm_compute; reflexivity. Qed.

(** * Further properties of the code *)

(** ** Loading the rules *)

Lemma insert_by_priority_perm (r : FraudRule) (l : list FraudRule) :
  insert_by_priority r l ≡ₚ r :: l.
Proof.
  induction l as [| x l IH]; [done |]. cbn.
  destruct (priority x <=? priority r)%Z; [done |].
  rewrite IH. apply Permutation_swap.
Qed.

Lemma insert_by_priority_sorted (r : FraudRule) (l : list FraudRule) :
  StronglySorted (fun a b => (priority b <= priority a)%Z) l →
  StronglySorted (fun a b => (priority b <= priority a)%Z) (insert_by_priority r l).
Proof.
  induction l as [| x l IH]; intros Hsorted; cbn.
  - repeat constructor.
  - apply StronglySorted_inv in Hsorted as [Hl Hx].
    destruct (priority x <=? priority r)%Z eqn:E.
    + apply Z.leb_le in E. constructor; [by constructor |].
      constructor; [done |].
      eapply Forall_impl; [exact Hx |]. cbn. intros y Hy. by etrans.
    + apply Z.leb_gt in E. constructor; [by apply IH |].
      rewrite insert_by_priority_perm. constructor; [| done].
      by apply Z.lt_le_incl.
Qed.

Lemma load_rules_perm (table : list FraudRule) :
  load_rules table ≡ₚ filter (fun r => is_active r = true) table.
Proof.
  unfold load_rules.
  generalize (filter (fun r => is_active r = true) table). intros l.
  induction l as [| r l IH]; [done |].
  cbn. rewrite insert_by_priority_perm. by constructor.
Qed.

(** X1: [load_rules] returns exactly the active rules of the table, each
    as often as it occurs there, ordered by priority from high to low. *)
Theorem load_rules_sorted_active (table : list FraudRule) :
  StronglySorted (fun a b => (priority b <= priority a)%Z) (load_rules table) ∧
  load_rules table ≡ₚ filter (fun r => is_active r = true) table ∧
  (∀ r, r ∈ load_rules table ↔ r ∈ table ∧ is_active r = true).
Proof.
  split; [| split; [apply load_rules_perm |]].
  - unfold load_rules.
    generalize (filter (fun r => is_active r = true) table). intros l.
    induction l as [| r l IH]; [constructor |].
    cbn. by apply insert_by_priority_sorted.
  - intros r. rewrite load_rules_perm, list_elem_of_filter. tauto.
Qed.

(** ** Groups of conditions *)

Section GroupProperties.
Context `{Builtins}.

Lemma evaluate_conditions_group (logic : string) (conditions : list value)
    (transaction : gmap string value) :
  evaluate_conditions (group logic conditions) transaction =
  if String.eqb (upper logic) "AND" then
    py_all (fun cond => evaluate_condition cond transaction) conditions
  else if String.eqb (upper logic) "OR" then
    py_any (fun cond => evaluate_condition cond transaction) conditions
  else Ok false.
Proof.
  unfold evaluate_conditions, group. cbn.
  destruct (String.eqb (upper logic) "AND"); [done |].
  by destruct (String.eqb (upper logic) "OR").
Qed.

Lemma py_all_forallb (f : value → result bool) (l : list value) (bs : list bool) :
  Forall2 (fun c b => f c = Ok b) l bs → py_all f l = Ok (forallb (fun b => b) bs).
Proof.
  induction 1 as [| c b l bs Hc _ IH]; [done |].
  cbn. rewrite Hc. cbn. by destruct b.
Qed.

Lemma py_any_existsb (f : value → result bool) (l : list value) (bs : list bool) :
  Forall2 (fun c b => f c = Ok b) l bs → py_any f l = Ok (existsb (fun b => b) bs).
Proof.
  induction 1 as [| c b l bs Hc _ IH]; [done |].
  cbn. rewrite Hc. cbn. by destruct b.
Qed.

(** X2: when every sub-condition of a group evaluates, the group is the
    conjunction of the results for the logic AND, their disjunction for
    OR, and false for any other logic; the logic word is compared after
    upper-casing, so "and" and "Or" are accepted. *)
Theorem group_is_conjunction_or_disjunction (logic : string) (conditions : list value)
    (results : list bool) (transaction : gmap string value) :
  Forall2 (fun cond b => evaluate_condition cond transaction = Ok b) conditions results →
  evaluate_conditions (group logic conditions) transaction =
    Ok (if String.eqb (upper logic) "AND" then forallb (fun b => b) results
        else if String.eqb (upper logic) "OR" then existsb (fun b => b) results
        else false).
Proof.
  intros Hall. rewrite evaluate_conditions_group.
  destruct (String.eqb (upper logic) "AND"); [by apply py_all_forallb |].
  destruct (String.eqb (upper logic) "OR"); [by apply py_any_existsb | done].
Qed.

(** X3: a group is decided by its first decisive sub-condition: an AND
    is false at the first false one and an OR true at the first true one,
    and what follows it is not evaluated, so that a malformed later
    sub-condition neither raises nor changes the result. *)
Theorem group_stops_at_first_decisive (decisive : bool) (logic : string)
    (before after : list value) (cond : value) (transaction : gmap string value) :
  upper logic = (if decisive then "OR" else "AND") →
  Forall (fun c => evaluate_condition c transaction = Ok (negb decisive)) before →
  evaluate_condition cond transaction = Ok decisive →
  evaluate_conditions (group logic (before ++ cond :: after)) transaction = Ok decisive.
Proof.
  intros Hlogic Hbefore Hcond. rewrite evaluate_conditions_group, Hlogic.
  destruct decisive; cbn.
  - induction Hbefore as [| c l Hc _ IH]; cbn; [by rewrite Hcond |]. by rewrite Hc.
  - induction Hbefore as [| c l Hc _ IH]; cbn; [by rewrite Hcond |]. by rewrite Hc.
Qed.

(** X4: groups do not nest: the items of a group are evaluated as leaf
    predicates, and a group read as a leaf has no field, hence is false.
    An AND group with a nested group in front is false, and an OR group
    of nested groups is false, whatever the nested groups contain. *)
Theorem groups_do_not_nest (inner_logic : string) (inner : list value)
    (rest : list value) (nested : list (string * list value))
    (transaction : gmap string value) :
  evaluate_condition (group inner_logic inner) transaction = Ok false ∧
  evaluate_conditions (group "AND" (group inner_logic inner :: rest)) transaction
    = Ok false ∧
  evaluate_conditions (group "OR" (map (fun g => group (fst g) (snd g)) nested)) transaction
    = Ok false.
Proof.
  assert (∀ l c, evaluate_condition (group l c) transaction = Ok false) as Hleaf by done.
  split; [apply Hleaf |]. split.
  - rewrite evaluate_conditions_group.
    change (String.eqb (upper "AND") "AND") with true.
    cbn [py_all]. by rewrite Hleaf.
  - rewrite evaluate_conditions_group.
    change (String.eqb (upper "OR") "AND") with false.
    change (String.eqb (upper "OR") "OR") with true. cbv iota.
    induction nested as [| [l c] nested IH]; [done |].
    cbn [map py_any fst snd]. by rewrite Hleaf.
Qed.

End GroupProperties.

Lemma group_is_conjunction_or_disjunction_witness :
  evaluate_conditions (H := sample_builtins)
    (group "and" [leaf (VStr "amount") (VStr ">") (VNum 5000);
                  leaf (VStr "location") (VStr "contains") (VStr "India")])
    sample_attributes = Ok true.
Proof.
  apply (group_is_conjunction_or_disjunction (H := sample_builtins) "and" _ [true; true]).
  repeat constructor.
Defined.

Lemma group_stops_at_first_decisive_witness :
  evaluate_conditions (H := sample_builtins)
    (group "AND" ([leaf (VStr "amount") (VStr ">") (VNum 5000)] ++
                  leaf (VStr "amount") (VStr "<") (VNum 5000) :: [VStr "not a condition"]))
    sample_attributes = Ok false.
Proof.
  apply (group_stops_at_first_decisive (H := sample_builtins) false "AND").
  - reflexivity.
  - repeat constructor.
  - reflexivity.
Defined.

(** ** More on the aggregation *)

Section AggregationExtras.
Context `{Builtins}.

Lemma triggered_perm (transaction : gmap string value) (rules rules' : list FraudRule) :
  rules ≡ₚ rules' →
  triggered_scores transaction rules ≡ₚ triggered_scores transaction rules'.
Proof.
  intros Hperm. unfold triggered_scores, triggered.
  apply Permutation_map.
  induction Hperm as [| x l l' _ IH | x y l | l l' l'' _ IH1 _ IH2]; cbn.
  - done.
  - destruct (triggers transaction x); [by constructor | done].
  - destruct (triggers transaction x), (triggers transaction y);
      try done. apply Permutation_swap.
  - by etrans.
Qed.

(** The engine's score through its upper bounds. *)
Lemma evaluate_transaction_upper_bounds (rules : list FraudRule)
    (transaction : gmap string value) :
  Forall (fun rule => well_formed transaction rule = true) rules →
  ∃ res q,
    evaluate_transaction rules transaction = Ok res ∧
    as_number (rule_score res) = Some q ∧
    ∀ b, (q <= b)%Q ↔
         ((0 <= b)%Q ∧ Forall (fun x => (x <= b)%Q) (triggered_scores transaction rules))
         ∨ (1 <= b)%Q.
Proof.
  intros Hwf. unfold evaluate_transaction.
  destruct (run_rules_spec transaction rules
              {| rule_score := VNum 0; triggered_rules := []; flags := [] |} 0%Q Hwf eq_refl)
    as (acc & q' & Hrun & Hnum & Hbound & _).
  rewrite Hrun. cbn [rbind]. unfold py_min, py_lt.
  rewrite (py_cmp_numbers (VNum 1) (rule_score acc) 1%Q q' eq_refl Hnum). cbn [rbind].
  eexists. exists (match Qcompare 1 q' with Lt => 1%Q | _ => q' end).
  split; [reflexivity |]. cbn [rule_score].
  split; [by destruct (Qcompare 1 q') |].
  intros b. by rewrite capped_le, Hbound.
Qed.

(** X5: the rule score does not depend on the order in which the rules
    are evaluated: two orderings of the same processable rules give the
    same score. *)
Theorem rule_score_order_independent (rules rules' : list FraudRule)
    (transaction : gmap string value) :
  rules ≡ₚ rules' →
  Forall (fun rule => well_formed transaction rule = true) rules →
  ∃ res res' q q',
    evaluate_transaction rules transaction = Ok res ∧
    evaluate_transaction rules' transaction = Ok res' ∧
    as_number (rule_score res) = Some q ∧
    as_number (rule_score res') = Some q' ∧
    (q == q')%Q.
Proof.
  intros Hperm Hwf.
  assert (Forall (fun rule => well_formed transaction rule = true) rules') as Hwf'
    by (by rewrite <- Hperm).
  destruct (evaluate_transaction_upper_bounds rules transaction Hwf)
    as (res & q & Hres & Hq & Hbound).
  destruct (evaluate_transaction_upper_bounds rules' transaction Hwf')
    as (res' & q' & Hres' & Hq' & Hbound').
  exists res, res', q, q'. repeat (split; [done |]).
  apply Qeq_by_upper_bounds. intros b.
  by rewrite Hbound, Hbound', (triggered_perm transaction rules rules' Hperm).
Qed.

(** X6: adding a rule never lowers the rule score, and a triggered rule
    pushes it at least to its own risk score cut to [0,1]. *)
Theorem rule_score_monotone (rule : FraudRule) (before after : list FraudRule)
    (transaction : gmap string value) :
  Forall (fun r => well_formed transaction r = true) (before ++ rule :: after) →
  ∃ res res' q q',
    evaluate_transaction (before ++ after) transaction = Ok res ∧
    evaluate_transaction (before ++ rule :: after) transaction = Ok res' ∧
    as_number (rule_score res) = Some q ∧
    as_number (rule_score res') = Some q' ∧
    (q <= q')%Q ∧
    (∀ s, triggers transaction rule = true → risk_score_action rule = Some s →
          (clamp s <= q')%Q).
Proof.
  intros Hwf.
  assert (Forall (fun r => well_formed transaction r = true) (before ++ after)) as Hwf0.
  { rewrite Forall_app in *. destruct Hwf as [? Htail].
    apply Forall_cons in Htail as [_ ?]. done. }
  destruct (evaluate_transaction_upper_bounds _ transaction Hwf0)
    as (res & q & Hres & Hq & Hbound).
  destruct (evaluate_transaction_upper_bounds _ transaction Hwf)
    as (res' & q' & Hres' & Hq' & Hbound').
  exists res, res', q, q'. repeat (split; [done |]).
  assert (((0 <= q')%Q ∧
           Forall (fun x => (x <= q')%Q)
             (triggered_scores transaction (before ++ rule :: after)))
          ∨ (1 <= q')%Q) as Hself by (apply Hbound', Qle_refl).
  unfold triggered_scores, triggered in Hself, Hbound |- *.
  rewrite List.filter_app, map_app in Hself. cbn [List.filter] in Hself.
  split.
  - apply Hbound. rewrite List.filter_app, map_app.
    destruct Hself as [[Hpos Hall] | Hone]; [left | by right].
    split; [done |]. rewrite Forall_app in *. destruct Hall as [? Htail].
    split; [done |].
    destruct (triggers transaction rule); [| done].
    by apply Forall_cons in Htail as [_ ?].
  - intros s Htrig Hs. rewrite Htrig in Hself. cbn [map] in Hself. rewrite Hs in Hself.
    apply clamp_le.
    destruct Hself as [[Hpos Hall] | Hone]; [left | by right].
    rewrite Forall_app in Hall. destruct Hall as [_ Htail].
    by apply Forall_cons in Htail as [? _].
Qed.

End AggregationExtras.

Lemma rule_score_order_independent_witness :
  ∃ res res' q q',
    evaluate_transaction (H := sample_builtins) [any_amount_rule; high_amount_rule]
      sample_attributes = Ok res ∧
    evaluate_transaction (H := sample_builtins) [high_amount_rule; any_amount_rule]
      sample_attributes = Ok res' ∧
    as_number (rule_score res) = Some q ∧
    as_number (rule_score res') = Some q' ∧
    (q == q')%Q.
Proof.
  apply (rule_score_order_independent (H := sample_builtins)).
  - apply Permutation_swap.
  - repeat constructor.
Defined.

Lemma rule_score_monotone_witness :
  ∃ res res' q q',
    evaluate_transaction (H := sample_builtins) ([any_amount_rule] ++ [])
      sample_attributes = Ok res ∧
    evaluate_transaction (H := sample_builtins) ([any_amount_rule] ++ high_amount_rule :: [])
      sample_attributes = Ok res' ∧
    as_number (rule_score res) = Some q ∧
    as_number (rule_score res') = Some q' ∧
    (q <= q')%Q.
Proof.
  destruct (rule_score_monotone (H := sample_builtins) high_amount_rule
              [any_amount_rule] [] sample_attributes)
    as (res & res' & q & q' & Hres & Hres' & Hq & Hq' & Hle & _).
  - repeat constructor.
  - by exists res, res', q, q'.
Defined.

(** ** What the weights allow *)

Lemma in_unit_interval_validated (r : TransactionResponse.t) :
  validate_response r = true →
  (0 <= TransactionResponse.risk_score r <= 1)%R ∧
  (0 <= TransactionResponse.rule_score r <= 1)%R ∧
  (0 <= TransactionResponse.ml_score r <= 1)%R.
Proof.
  unfold validate_response. rewrite !andb_true_iff, !in_unit_interval_true. tauto.
Qed.

Section WeightProperties.
Context `{Builtins} `{Digest}.

Lemma low_rule_score_is_approved (env : Env) (w : World) (txn : TransactionRequest.t)
    (r : TransactionResponse.t) :
  answer (process_transaction env w txn) = Processed r →
  (TransactionResponse.rule_score r <= 0.25)%R →
  TransactionResponse.is_fraud r = false ∧ TransactionResponse.status r = "approved".
Proof.
  intros Hr Hlow.
  destruct (processed_response env w txn r Hr) as (_ & Hrisk & Hfraud & Hstatus & Hvalid).
  destruct (in_unit_interval_validated r Hvalid) as (_ & Hrule & Hml).
  unfold final_risk_score in Hrisk. rewrite Hfraud, Hstatus. split.
  - apply is_fraud_false. Lra.lra.
  - assert (is_approved (TransactionResponse.risk_score r) = true) as ->; [| done].
    apply is_approved_true. Lra.lra.
Qed.

(** X7: the model weighs 0.6 and cannot flag or decline on its own: in a
    fresh response a declined transaction is always flagged as fraud and
    has a rule score of at least 0.5, and a rule score of at most 0.25
    gives an approved transaction without the fraud flag. *)
Theorem model_alone_never_declines (env : Env) (w : World) (txn : TransactionRequest.t)
    (r : TransactionResponse.t) :
  answer (process_transaction env w txn) = Processed r →
  (TransactionResponse.status r = "declined" →
     TransactionResponse.is_fraud r = true ∧ (0.5 <= TransactionResponse.rule_score r)%R) ∧
  ((TransactionResponse.rule_score r <= 0.25)%R →
     TransactionResponse.is_fraud r = false ∧ TransactionResponse.status r = "approved").
Proof.
  intros Hr. split; [| exact (low_rule_score_is_approved env w txn r Hr)].
  destruct (processed_response env w txn r Hr) as (_ & Hrisk & Hfraud & Hstatus & Hvalid).
  destruct (in_unit_interval_validated r Hvalid) as (_ & Hrule & Hml).
  unfold final_risk_score in Hrisk. rewrite Hfraud, Hstatus.
  destruct (is_approved (TransactionResponse.risk_score r)) eqn:Happroved; [done |].
  intros _. apply is_approved_false in Happroved.
  split; [apply is_fraud_true |]; Lra.lra.
Qed.

Lemma resolve_idempotency_rules (env : Env) (w : World) (txn : TransactionRequest.t) :
  fraud_rules (snd (fst (resolve_idempotency env w txn))) = fraud_rules w.
Proof.
  unfold resolve_idempotency, check_idempotency_key, get_idempotency_response,
    set_idempotency_response, redis_get, redis_setex.
  destruct (redis_up env IdempotencyCheck); cbn [rbind]; [| done].
  destruct (redis_idempotency w !! _) as [[[cached|] expiry]|];
    repeat first
      [ done
      | match goal with
        | |- context [if ?c then _ else _] => destruct c; cbn [negb rbind fst snd]
        | |- context [match ?o with Some _ => _ | None => _ end] =>
            destruct o; cbn [negb rbind fst snd]
        end ].
Qed.

Lemma load_profile_rules (env : Env) (w : World) (txn : TransactionRequest.t) :
  fraud_rules (snd (fst (load_profile env w txn))) = fraud_rules w.
Proof.
  unfold load_profile, get_user_profile, set_user_profile, redis_get, redis_setex.
  destruct (redis_up env ProfileLookup); cbn [rbind]; [| done].
  destruct (redis_user_profile w !! _) as [[p expiry]|];
    [destruct (utcnow env <? expiry)%Z; [destruct p |] |]; done.
Qed.

(** The rule score of a fresh response is the one the rule phase gave on
    the rules of the table. *)
Lemma processed_rule_score (env : Env) (w : World) (txn : TransactionRequest.t)
    (r : TransactionResponse.t) :
  answer (process_transaction env w txn) = Processed r →
  ∃ w2 q,
    fraud_rules w2 = fraud_rules w ∧
    as_number (fst (evaluate_rules env w2 (transaction_data txn))) = Some q ∧
    TransactionResponse.rule_score r = Q2R q.
Proof.
  unfold process_transaction.
  pose proof (resolve_idempotency_rules env w txn) as Hrules1.
  destruct (resolve_idempotency env w txn) as [[[cached|] w1] log1]; [discriminate |].
  pose proof (load_profile_rules env w1 txn) as Hrules2.
  destruct (load_profile env w1 txn) as [[user_profile w2] log2]. cbn [fst snd] in *.
  destruct (evaluate_rules env w2 (transaction_data txn)) as [rule_value log3] eqn:Hphase.
  destruct (score_transaction _) as [ml|]; [| discriminate].
  destruct (as_number rule_value) as [q|] eqn:Hq; [| discriminate].
  destruct (persist env w2 _) as [[created w3] log4].
  destruct (negb (validate_response _)); [discriminate |].
  destruct (store_idempotency_key env w3 _ txn _ 24) as [[?|?] w4]; cbn [answer];
    intros [= <-]; exists w2, q; rewrite Hphase; cbn; by rewrite Hrules2, Hrules1.
Qed.

(** X8: one active rule that the engine cannot process (a condition that
    raises, or a triggered action without a numeric risk_score) switches
    rule scoring off: the rule phase yields 0 with a warning, and every
    fresh response has rule score 0, no fraud flag and status approved. *)
Theorem malformed_rule_disables_rule_scoring (env : Env) (w : World)
    (txn : TransactionRequest.t) (rule : FraudRule) :
  rule ∈ fraud_rules w → is_active rule = true →
  well_formed (transaction_data txn) rule = false →
  (∀ w', fraud_rules w' = fraud_rules w →
     ∃ e, evaluate_rules env w' (transaction_data txn) = (VNum 0, [RuleEngineFailed e])) ∧
  (∀ r, answer (process_transaction env w txn) = Processed r →
     TransactionResponse.rule_score r = 0%R ∧
     TransactionResponse.is_fraud r = false ∧
     TransactionResponse.status r = "approved").
Proof.
  intros Hin Hactive Hbad.
  assert (∀ w', fraud_rules w' = fraud_rules w →
            ∃ e, evaluate_rules env w' (transaction_data txn)
                 = (VNum 0, [RuleEngineFailed e])) as Hphase.
  { intros w' Hsame. unfold evaluate_rules. rewrite Hsame.
    destruct (db_up env Evaluate); [| by eexists].
    destruct (evaluate_transaction (load_rules (fraud_rules w)) (transaction_data txn))
      as [res|e] eqn:Hres; [| by eexists].
    assert (is_ok (evaluate_transaction (load_rules (fraud_rules w)) (transaction_data txn))
            = true) as Hok by (by rewrite Hres).
    apply evaluate_transaction_returns_iff in Hok.
    rewrite Forall_forall in Hok.
    assert (rule ∈ load_rules (fraud_rules w)) as Hloaded
      by (by rewrite load_rules_perm, list_elem_of_filter).
    rewrite (Hok rule Hloaded) in Hbad. discriminate. }
  split; [exact Hphase |].
  intros r Hr.
  destruct (processed_rule_score env w txn r Hr) as (w2 & q & Hsame & Hq & Hrule).
  destruct (Hphase w2 Hsame) as [e He]. rewrite He in Hq. injection Hq as <-.
  assert (TransactionResponse.rule_score r = 0%R) as Hzero
    by (by rewrite Hrule, RMicromega.Q2R_0).
  split; [exact Hzero |].
  apply (low_rule_score_is_approved env w txn r Hr). rewrite Hzero. Lra.lra.
Qed.

End WeightProperties.

Lemma model_alone_never_declines_witness :
  ∃ r,
    answer (process_transaction (H := sample_builtins) (H0 := sample_digest)
              sample_env empty_world sample_request) = Processed r ∧
    ((TransactionResponse.rule_score r <= 0.25)%R →
       TransactionResponse.is_fraud r = false ∧ TransactionResponse.status r = "approved").
Proof.
  destruct (process_fresh (H := sample_builtins) (H0 := sample_digest)
              sample_env empty_world sample_request empty_world [] 0%R
              sample_request_misses eq_refl) as (q & r & Hr & _).
  exists r. split; [exact Hr |].
  exact (proj2 (model_alone_never_declines (H := sample_builtins) (H0 := sample_digest)
                  sample_env empty_world sample_request r Hr)).
Defined.

Lemma malformed_rule_disables_rule_scoring_witness :
  ∃ e,
    evaluate_rules (H := sample_builtins) sample_env broken_world
      (transaction_data sample_request) = (VNum 0, [RuleEngineFailed e]).
Proof.
  refine (proj1 (malformed_rule_disables_rule_scoring
                   (H := sample_builtins) (H0 := sample_digest)
                   sample_env broken_world sample_request broken_rule _ _ _)
            broken_world eq_refl).
  - apply list_elem_of_further, list_elem_of_here.
  - reflexivity.
  - vm_compute. reflexivity.
Defined.

(** ** Feature extraction *)

Lemma py_gt_zero (v : value) :
  py_gt v (VNum 0) = Ok true → ∃ q, as_number v = Some q ∧ (0 < q)%Q.
Proof.
  unfold py_gt. destruct (py_cmp v (VNum 0)) as [c|] eqn:Hcmp; [| discriminate].
  destruct (py_cmp_against_number v (VNum 0) 0%Q c eq_refl Hcmp) as (q & Hq & ->).
  cbn [rbind]. destruct (Qcompare q 0) eqn:E; try discriminate.
  intros _. exists q. split; [done |]. by apply Qgt_alt in E.
Qed.

Section FeatureProperties.
Context `{Builtins}.

(** X10: for a user without history (no profile, an empty one, or the
    default profile the handler creates) the features of a transaction of
    amount [a] are (a, hour, weekday, 1, 0, 0): the deviation is maximal,
    the location flag and the frequency are 0. *)
Theorem features_without_history (hour weekday : Z) (transaction : gmap string value)
    (a : Q) (user_profile : option dict) :
  transaction !! "amount" = Some (VNum a) →
  user_profile = None ∨ user_profile = Some [] ∨ user_profile = Some default_profile →
  ∃ features,
    extract_features hour weekday transaction user_profile = Ok features ∧
    Forall2 Qeq features [a; inject_Z hour; inject_Z weekday; 1%Q; 0%Q; 0%Q].
Proof.
  intros Hamount Hprofile. unfold extract_features. rewrite Hamount. cbn [default py_float py_number as_number rbind].
  destruct Hprofile as [-> | [-> | ->]]; eexists; (split; [reflexivity |]);
    repeat constructor; reflexivity.
Qed.

(** X11: whenever feature extraction returns, it returns six features:
    the second and third are the hour and the weekday, the deviation is
    not negative, the location flag is 0 or 1, and the frequency is at
    most 1. *)
Theorem feature_ranges (hour weekday : Z) (transaction : gmap string value)
    (user_profile : option dict) (features : list Q) :
  extract_features hour weekday transaction user_profile = Ok features →
  ∃ f1 f4 f5 f6,
    features = [f1; inject_Z hour; inject_Z weekday; f4; f5; f6] ∧
    (0 <= f4)%Q ∧ (f5 = 0%Q ∨ f5 = 1%Q) ∧ (f6 <= 1)%Q.
Proof.
  unfold extract_features.
  destruct (py_float _) as [f1|]; [| discriminate]. cbn [rbind].
  set (profile := match user_profile with Some ((_ :: _) as p) => Some p | _ => None end).
  destruct profile as [p|].
  - destruct (py_gt _ (VNum 0)) as [[|]|] eqn:Hpos; try discriminate; cbn [rbind].
    + destruct (py_gt_zero _ Hpos) as (avg & Havg & Hlt).
      destruct (py_number (default (VNum 0) (transaction !! "amount"))) as [a|];
        [| discriminate].
      unfold py_number at 1. rewrite Havg. cbn [rbind].
      destruct (py_number _) as [count|]; [| discriminate]. cbn [rbind].
      intros [= <-]. do 4 eexists. split; [reflexivity |].
      split; [| split].
      * apply Qle_shift_div_l; [exact Hlt |].
        apply Qle_trans with 0%Q; [Lqa.lra | exact (Qabs_nonneg (a - avg))].
      * destruct (_ && _); [by right | by left].
      * apply Q.le_min_r.
    + destruct (py_number _) as [count|]; [| discriminate]. cbn [rbind].
      intros [= <-]. do 4 eexists. split; [reflexivity |].
      split; [done |]. split; [| apply Q.le_min_r].
      destruct (_ && _); [by right | by left].
  - cbn [rbind]. intros [= <-]. do 4 eexists. split; [reflexivity |].
    split; [done |]. split; [by left | done].
Qed.

(** X13: a profile that records a null average amount makes feature
    extraction raise a TypeError, and with it the scorer. *)
Theorem null_average_raises (hour weekday : Z) (transaction : gmap string value)
    (p : dict) (forest : list Q → result R) :
  p ≠ [] →
  dict_lookup "average_transaction_amount" p = Some VNone →
  is_number (default (VNum 0) (transaction !! "amount")) = true →
  extract_features hour weekday transaction (Some p) = Raise TypeError ∧
  score_transaction (forest_decision (Ok forest) hour weekday transaction (Some p))
    = Raise TypeError.
Proof.
  intros Hnonempty Hnull Hamount.
  assert (extract_features hour weekday transaction (Some p) = Raise TypeError) as Hraise.
  { unfold extract_features. unfold is_number in Hamount.
    destruct (default (VNum 0) (transaction !! "amount")) as [| b | q | | |] eqn:E;
      try discriminate Hamount; cbn [py_float py_number as_number rbind].
    all: destruct p as [| kv p']; [done |]; cbn [rbind];
      set (p := kv :: p') in *;
      unfold dict_get_default; rewrite Hnull; try destruct b; reflexivity. }
  split; [exact Hraise |].
  unfold forest_decision. cbn [rbind]. by rewrite Hraise.
Qed.

End FeatureProperties.

Lemma features_without_history_witness :
  ∃ features,
    extract_features (H := sample_builtins) 14 2 sample_attributes (Some default_profile)
      = Ok features ∧
    Forall2 Qeq features [6000%Q; inject_Z 14; inject_Z 2; 1%Q; 0%Q; 0%Q].
Proof.
  apply (features_without_history (H := sample_builtins) 14 2 sample_attributes 6000%Q).
  - reflexivity.
  - right. right. reflexivity.
Defined.

Lemma feature_ranges_witness :
  ∃ features f1 f4 f5 f6,
    extract_features (H := sample_builtins) 14 2 sample_attributes (Some sample_profile)
      = Ok features ∧
    features = [f1; inject_Z 14; inject_Z 2; f4; f5; f6] ∧
    (0 <= f4)%Q ∧ (f5 = 0%Q ∨ f5 = 1%Q) ∧ (f6 <= 1)%Q.
Proof.
  destruct (extract_features (H := sample_builtins) 14 2 sample_attributes
              (Some sample_profile)) as [features|] eqn:E;
    [| vm_compute in E; discriminate].
  destruct (feature_ranges (H := sample_builtins) 14 2 sample_attributes
              (Some sample_profile) features E) as (f1 & f4 & f5 & f6 & Hshape & Hrest).
  by exists features, f1, f4, f5, f6.
Defined.

Lemma null_average_raises_witness :
  extract_features (H := sample_builtins) 14 2 sample_attributes
    (Some null_average_profile) = Raise TypeError.
Proof.
  refine (proj1 (null_average_raises (H := sample_builtins) 14 2 sample_attributes
                   null_average_profile (fun _ => Ok 0%R) _ _ _)).
  - discriminate.
  - reflexivity.
  - reflexivity.
Defined.

(** ** The profile cache *)

(** X14: a profile cached with a positive TTL is returned for that user
    until the TTL has run out and not after; the entries of other users
    and the cached idempotency responses are not touched. *)
Theorem cached_profile_round_trip (up : bool) (now later ttl : Z) (w w' : World)
    (user_id : string) (profile : dict) :
  set_user_profile up now ttl w user_id profile = Ok w' →
  (0 < ttl)%Z →
  get_user_profile true later w' user_id
    = Ok (if (later <? now + ttl)%Z then Some profile else None) ∧
  (∀ other, other ≠ user_id →
     get_user_profile true later w' other = get_user_profile true later w other) ∧
  (∀ key, get_idempotency_response true later w' key
          = get_idempotency_response true later w key).
Proof.
  unfold set_user_profile, redis_setex. destruct up; [| discriminate].
  cbn [rbind]. intros [= <-] _.
  unfold get_user_profile, get_idempotency_response, redis_get. cbn.
  split; [by rewrite lookup_insert_eq |].
  split; [| done]. intros other Hother. by rewrite lookup_insert_ne.
Qed.

(** ** The idempotency store *)

Section StoreProperties.
Context `{Digest}.

(** X15: the check never invents a response: what it returns is a live
    Redis entry of the key, or the response of the key's table row, and
    then the row's hash is the hash of the request and the row is not
    expired. *)
Theorem check_returns_only_stored (env : Env) (w w' : World) (key : string)
    (body : TransactionRequest.t) (r : TransactionResponse.t) :
  check_idempotency_key env w key body = (Ok (Some r), w') →
  (∃ expiry, redis_idempotency w !! key = Some (Some r, expiry) ∧
             (utcnow env < expiry)%Z) ∨
  (∃ record, idempotency_keys w !! key = Some record ∧
             IdempotencyKey.response_data record = Some r ∧
             IdempotencyKey.request_hash record = generate_request_hash body ∧
             (utcnow env < IdempotencyKey.expires_at record)%Z).
Proof.
  unfold check_idempotency_key, get_idempotency_response, redis_get.
  destruct (redis_up env IdempotencyCheck); [| discriminate]. cbn [rbind].
  destruct (redis_idempotency w !! key) as [[cached expiry]|] eqn:Hentry.
  - destruct (utcnow env <? expiry)%Z eqn:Hlive.
    + destruct cached as [cached|].
      * intros [= <- <-]. left. exists expiry. by apply Z.ltb_lt in Hlive.
      * intros Hcheck. right. revert Hcheck.
        destruct (db_up env IdempotencyCheck); [| discriminate]. cbn [negb].
        destruct (idempotency_keys w !! key) as [record|]; [| discriminate].
        destruct (String.eqb _ _) eqn:Hhash; [| discriminate].
        destruct (utcnow env <? IdempotencyKey.expires_at record)%Z eqn:Hfresh;
          [| discriminate].
        cbn. intros [= Hr _]. exists record.
        apply String.eqb_eq in Hhash. apply Z.ltb_lt in Hfresh. done.
    + intros Hcheck. right. revert Hcheck.
      destruct (db_up env IdempotencyCheck); [| discriminate]. cbn [negb].
      destruct (idempotency_keys w !! key) as [record|]; [| discriminate].
      destruct (String.eqb _ _) eqn:Hhash; [| discriminate].
      destruct (utcnow env <? IdempotencyKey.expires_at record)%Z eqn:Hfresh;
        [| discriminate].
      cbn. intros [= Hr _]. exists record.
      apply String.eqb_eq in Hhash. apply Z.ltb_lt in Hfresh. done.
  - intros Hcheck. right. revert Hcheck.
    destruct (db_up env IdempotencyCheck); [| discriminate]. cbn [negb].
    destruct (idempotency_keys w !! key) as [record|]; [| discriminate].
    destruct (String.eqb _ _) eqn:Hhash; [| discriminate].
    destruct (utcnow env <? IdempotencyKey.expires_at record)%Z eqn:Hfresh;
      [| discriminate].
    cbn. intros [= Hr _]. exists record.
    apply String.eqb_eq in Hhash. apply Z.ltb_lt in Hfresh. done.
Qed.

(** The check answered from the table. *)
Lemma table_hit (env : Env) (w : World) (key : string) (body : TransactionRequest.t)
    (record : IdempotencyKey.t) :
  get_idempotency_response (redis_up env IdempotencyCheck) (utcnow env) w key = Ok None →
  db_up env IdempotencyCheck = true →
  idempotency_keys w !! key = Some record →
  IdempotencyKey.request_hash record = generate_request_hash body →
  (utcnow env < IdempotencyKey.expires_at record)%Z →
  check_idempotency_key env w key body =
    (Ok (IdempotencyKey.response_data record),
     {| redis_idempotency :=
          <[key := (IdempotencyKey.response_data record, (utcnow env + 3600)%Z)]>
            (redis_idempotency w);
        redis_user_profile := redis_user_profile w;
        idempotency_keys := idempotency_keys w;
        transactions := transactions w;
        users := users w;
        fraud_rules := fraud_rules w;
        task_queue := task_queue w |}).
Proof.
  intros Hcache Hdb Hrecord Hhash Hfresh.
  assert (redis_up env IdempotencyCheck = true) as Hup.
  { unfold get_idempotency_response, redis_get in Hcache.
    by destruct (redis_up env IdempotencyCheck). }
  unfold check_idempotency_key. rewrite Hcache, Hdb, Hrecord, Hhash. cbn [negb].
  rewrite String.eqb_refl. apply Z.ltb_lt in Hfresh. rewrite Hfresh.
  unfold set_idempotency_response, redis_setex. by rewrite Hup.
Qed.





End StoreProperties.

Lemma cached_profile_round_trip_witness :
  ∃ w',
    set_user_profile true 1000 300 empty_world "user123" sample_profile = Ok w' ∧
    get_user_profile true 1100 w' "user123" = Ok (Some sample_profile) ∧
    get_user_profile true 1300 w' "user123" = Ok None.
Proof.
  eexists. split; [reflexivity |]. split.
  - refine (proj1 (cached_profile_round_trip true 1000 1100 300 empty_world _
                     "user123" sample_profile eq_refl _)). reflexivity.
  - refine (proj1 (cached_profile_round_trip true 1000 1300 300 empty_world _
                     "user123" sample_profile eq_refl _)). reflexivity.
Defined.

Lemma live_world_cache_is_empty :
  get_idempotency_response true 1000 live_world "test-key-123" = Ok None.
Proof. reflexivity. Qed.

Lemma live_record_matches :
  IdempotencyKey.request_hash live_record
  = generate_request_hash (H := sample_digest) sample_request.
Proof. reflexivity. Qed.


Lemma check_returns_only_stored_witness :
  ∃ record,
    idempotency_keys live_world !! "test-key-123" = Some record ∧
    IdempotencyKey.response_data record = Some sample_response.
Proof.
  pose proof (table_hit (H := sample_digest) sample_env live_world "test-key-123"
                sample_request live_record live_world_cache_is_empty eq_refl eq_refl
                live_record_matches eq_refl) as Hcheck.
  destruct (check_returns_only_stored (H := sample_digest) sample_env live_world _
              "test-key-123" sample_request sample_response Hcheck)
    as [(expiry & Hentry & _) | (record & Hrecord & Hresponse & _)].
  - discriminate Hentry.
  - exists record. split; [exact Hrecord | exact Hresponse].
Defined.




(** ** What a request leaves behind *)

Section EffectProperties.
Context `{Builtins} `{Digest}.

(** The check touches the Redis responses and the table only, and the
    table only by deleting the key's row on a miss. *)
Lemma check_frame (env : Env) (w : World) (key : string) (body : TransactionRequest.t) :
  let w' := snd (check_idempotency_key env w key body) in
  transactions w' = transactions w ∧ task_queue w' = task_queue w ∧
  users w' = users w ∧ fraud_rules w' = fraud_rules w ∧
  redis_user_profile w' = redis_user_profile w ∧
  (idempotency_keys w' = idempotency_keys w ∨
   (fst (check_idempotency_key env w key body) = Ok None ∧
    idempotency_keys w' = delete key (idempotency_keys w) ∧
    ∃ record, idempotency_keys w !! key = Some record ∧
              IdempotencyKey.request_hash record = generate_request_hash body ∧
              (IdempotencyKey.expires_at record <= utcnow env)%Z)).
Proof.
  unfold check_idempotency_key, get_idempotency_response, set_idempotency_response,
    redis_get, redis_setex.
  destruct (redis_up env IdempotencyCheck); cbn [rbind]; [| by repeat split; try left].
  assert (∀ cached : option TransactionResponse.t,
    let res :=
      match cached with
      | Some cached_response => (Ok (Some cached_response), w)
      | None =>
          if negb (db_up env IdempotencyCheck) then (Raise OperationalError, w) else
          match idempotency_keys w !! key with
          | Some idempotency_record =>
              if String.eqb (IdempotencyKey.request_hash idempotency_record)
                   (generate_request_hash body) then
                if (utcnow env <? IdempotencyKey.expires_at idempotency_record)%Z then
                  (Ok (IdempotencyKey.response_data idempotency_record),
                   {| redis_idempotency :=
                        <[key := (IdempotencyKey.response_data idempotency_record,
                                  (utcnow env + 3600)%Z)]> (redis_idempotency w);
                      redis_user_profile := redis_user_profile w;
                      idempotency_keys := idempotency_keys w;
                      transactions := transactions w;
                      users := users w;
                      fraud_rules := fraud_rules w;
                      task_queue := task_queue w |})
                else
                  (Ok None, with_idempotency_keys w (delete key (idempotency_keys w)))
              else (Raise (HTTPException 409), w)
          | None => (Ok None, w)
          end
      end in
    transactions (snd res) = transactions w ∧ task_queue (snd res) = task_queue w ∧
    users (snd res) = users w ∧ fraud_rules (snd res) = fraud_rules w ∧
    redis_user_profile (snd res) = redis_user_profile w ∧
    (idempotency_keys (snd res) = idempotency_keys w ∨
     (fst res = Ok None ∧ idempotency_keys (snd res) = delete key (idempotency_keys w) ∧
      ∃ record, idempotency_keys w !! key = Some record ∧
                IdempotencyKey.request_hash record = generate_request_hash body ∧
                (IdempotencyKey.expires_at record <= utcnow env)%Z)))
    as Hcases.
  { intros [cached|]; cbn zeta; [by repeat split; try left |].
    destruct (negb (db_up env IdempotencyCheck)); [by repeat split; try left |].
    destruct (idempotency_keys w !! key) as [record|]; [| by repeat split; try left].
    destruct (String.eqb _ _) eqn:Hhash; [| by repeat split; try left].
    destruct (utcnow env <? _)%Z eqn:Hlive; cbn; do 5 (split; [done |]); [by left | right].
    split; [done |]. split; [done |]. exists record. split; [done |].
    split; [by apply String.eqb_eq |]. apply Z.ltb_ge in Hlive. done. }
  destruct (redis_idempotency w !! key) as [[cached expiry]|].
  - destruct (utcnow env <? expiry)%Z; [apply (Hcases cached) | apply (Hcases None)].
  - apply (Hcases None).
Qed.

Lemma resolve_idempotency_frame (env : Env) (w : World) (txn : TransactionRequest.t) :
  let w1 := snd (fst (resolve_idempotency env w txn)) in
  transactions w1 = transactions w ∧ task_queue w1 = task_queue w ∧
  users w1 = users w ∧ redis_user_profile w1 = redis_user_profile w ∧
  (∀ r, fst (fst (resolve_idempotency env w txn)) = Some r →
        idempotency_keys w1 = idempotency_keys w ∧ validate_response r = true ∧
        snd (resolve_idempotency env w txn) = []) ∧
  (idempotency_keys w1 = idempotency_keys w ∨
   (idempotency_keys w1
      = delete (TransactionRequest.idempotency_key txn) (idempotency_keys w) ∧
    ∃ record,
      idempotency_keys w !! TransactionRequest.idempotency_key txn = Some record ∧
      IdempotencyKey.request_hash record = generate_request_hash txn ∧
      (IdempotencyKey.expires_at record <= utcnow env)%Z)).
Proof.
  unfold resolve_idempotency.
  pose proof (check_frame env w (TransactionRequest.idempotency_key txn) txn) as Hframe.
  destruct (check_idempotency_key env w _ txn) as [[[cached|]|e] w']; cbn [fst snd] in *;
    destruct Hframe as (Htx & Hq & Hu & _ & Hp & Hkeys).
  - destruct Hkeys as [Hkeys | [[=] _]].
    destruct (validate_response cached) eqn:Hvalid; cbn [fst snd].
    + do 4 (split; [done |]). split; [| by left]. by intros r' [= <-].
    + do 4 (split; [done |]). split; [| by left]. intros r' [=].
  - do 4 (split; [done |]). split; [intros r' [=] |].
    destruct Hkeys as [Hkeys | (_ & Hkeys & Hrecord)]; [by left | by right].
  - do 4 (split; [done |]). split; [intros r' [=] |].
    destruct Hkeys as [Hkeys | [[=] _]]. by left.
Qed.

Lemma load_profile_effects (env : Env) (w : World) (txn : TransactionRequest.t) :
  let w2 := snd (fst (load_profile env w txn)) in
  transactions w2 = transactions w ∧ task_queue w2 = task_queue w ∧ users w2 = users w ∧
  idempotency_keys w2 = idempotency_keys w.
Proof.
  unfold load_profile, get_user_profile, set_user_profile, redis_get, redis_setex.
  destruct (redis_up env ProfileLookup); cbn [rbind]; [| done].
  destruct (redis_user_profile w !! _) as [[p expiry]|];
    [destruct (utcnow env <? expiry)%Z; [destruct p |] |]; done.
Qed.

Lemma store_effects (env : Env) (w : World) (key : string) (body : TransactionRequest.t)
    (r : response_dict) :
  let w' := snd (store_idempotency_key env w key body r 24) in
  transactions w' = transactions w ∧ task_queue w' = task_queue w ∧ users w' = users w ∧
  (idempotency_keys w' = idempotency_keys w ∨
   (idempotency_keys w !! key = None ∧
    ∃ row, idempotency_keys w' = <[key := row]> (idempotency_keys w))).
Proof.
  unfold store_idempotency_key, set_idempotency_response, redis_setex.
  destruct (negb (db_up env Commit)); [by repeat split; try left |].
  destruct (json_dumps r) as [stored|e]; [| by repeat split; try left].
  destruct (idempotency_keys w !! key) eqn:Hrow; [by repeat split; try left |].
  destruct (redis_up env Commit); cbn; do 3 (split; [done |]); right; eauto.
Qed.

Lemma persist_effects (env : Env) (w : World) (row : Transaction.t) :
  let w' := snd (fst (persist env w row)) in
  task_queue w' = task_queue w ∧ users w' = users w ∧
  idempotency_keys w' = idempotency_keys w ∧
  (transactions w' = transactions w ∨
   (transactions w' = transactions w ++ [row] ∧
    fst (fst (persist env w row)) = database_now env ∧
    db_up env Persist = true ∧ Transaction.user_id row ∈ users w ∧
    Forall (fun t =>
      Transaction.idempotency_key t ≠ Transaction.idempotency_key row ∧
      Transaction.transaction_id t ≠ Transaction.transaction_id row) (transactions w))).
Proof.
  unfold persist. destruct (db_up env Persist); cbn [negb]; [| by repeat split; try left].
  destruct (forallb _ (transactions w)) eqn:Hfresh; cbn [andb];
    [| by repeat split; try left].
  destruct (bool_decide _) eqn:Huser; [| by repeat split; try left].
  cbn. do 3 (split; [done |]). right. do 3 (split; [done |]).
  split; [by apply bool_decide_eq_true in Huser |].
  rewrite forallb_forall in Hfresh. apply Forall_forall. intros t Ht.
  specialize (Hfresh t (proj1 (list_elem_of_In _ _) Ht)).
  apply andb_true_iff in Hfresh as [Hk Hi].
  apply negb_true_iff in Hk, Hi. by apply String.eqb_neq in Hk, Hi.
Qed.

(** X20: a request answered from the idempotency store has no side
    effect on the ledger, the task queue, the table of keys or the profile
    cache and prints no warning; the response it returns passed the
    response schema. *)
Theorem replay_has_no_side_effects (env : Env) (w : World) (txn : TransactionRequest.t)
    (r : TransactionResponse.t) :
  answer (process_transaction env w txn) = Replayed r →
  transactions (world (process_transaction env w txn)) = transactions w ∧
  task_queue (world (process_transaction env w txn)) = task_queue w ∧
  idempotency_keys (world (process_transaction env w txn)) = idempotency_keys w ∧
  redis_user_profile (world (process_transaction env w txn)) = redis_user_profile w ∧
  log (process_transaction env w txn) = [] ∧
  validate_response r = true.
Proof.
  unfold process_transaction.
  pose proof (resolve_idempotency_frame env w txn) as Hframe.
  destruct (resolve_idempotency env w txn) as [[[cached|] w1] log1]; cbn [fst snd] in *.
  - intros [= <-]. destruct Hframe as (Htx & Hq & _ & Hp & Hhit & _).
    destruct (Hhit cached eq_refl) as (Hkeys & Hvalid & Hlog). by cbn.
  - destruct (load_profile env w1 txn) as [[user_profile w2] log2].
    destruct (evaluate_rules env w2 (transaction_data txn)) as [rule_value log3].
    destruct (score_transaction _) as [ml|]; [| discriminate].
    destruct (as_number rule_value) as [q|]; [| discriminate].
    destruct (persist env w2 _) as [[created w3] log4].
    destruct (negb (validate_response _)); [discriminate |].
    by destruct (store_idempotency_key env w3 _ txn _ 24) as [[?|?] w4].
Qed.

(** What a run did to the ledger and the queue, in terms of its phases. *)
Lemma fresh_run_effects (env : Env) (w : World) (txn : TransactionRequest.t)
    (r : TransactionResponse.t) :
  answer (process_transaction env w txn) = Processed r →
  task_queue (world (process_transaction env w txn)) =
    task_queue w ++
    (if TransactionResponse.is_fraud r
     then [send_fraud_alert_email (TransactionRequest.user_id txn)
             (TransactionResponse.transaction_id r) (TransactionResponse.risk_score r)]
     else []) ++
    [update_user_profile (TransactionRequest.user_id txn) (transaction_data txn)] ∧
  (transactions (world (process_transaction env w txn)) = transactions w ∨
   ∃ row,
     transactions (world (process_transaction env w txn)) = transactions w ++ [row] ∧
     Transaction.transaction_id row = TransactionResponse.transaction_id r ∧
     Transaction.idempotency_key row = TransactionRequest.idempotency_key txn ∧
     Transaction.user_id row = TransactionRequest.user_id txn ∧
     Transaction.amount row = TransactionRequest.amount txn ∧
     Transaction.final_risk_score row = TransactionResponse.risk_score r ∧
     Transaction.rule_score row = TransactionResponse.rule_score r ∧
     Transaction.ml_score row = TransactionResponse.ml_score r ∧
     Transaction.is_fraud row = TransactionResponse.is_fraud r ∧
     TransactionResponse.status r
       = (if Transaction.is_approved row then "approved" else "declined") ∧
     TransactionResponse.created_at r = database_now env ∧
     db_up env Persist = true ∧
     Transaction.user_id row ∈ users w ∧
     Forall (fun t =>
       Transaction.idempotency_key t ≠ Transaction.idempotency_key row ∧
       Transaction.transaction_id t ≠ Transaction.transaction_id row) (transactions w)).
Proof.
  unfold process_transaction.
  pose proof (resolve_idempotency_frame env w txn) as Hframe1.
  destruct (resolve_idempotency env w txn) as [[[cached|] w1] log1]; [discriminate |].
  cbn [fst snd] in Hframe1. destruct Hframe1 as (Htx1 & Hq1 & Hu1 & _).
  pose proof (load_profile_effects env w1 txn) as Hframe2.
  destruct (load_profile env w1 txn) as [[user_profile w2] log2].
  cbn [fst snd] in Hframe2. destruct Hframe2 as (Htx2 & Hq2 & Hu2 & _).
  destruct (evaluate_rules env w2 (transaction_data txn)) as [rule_value log3].
  destruct (score_transaction _) as [ml|]; [| discriminate].
  destruct (as_number rule_value) as [q|]; [| discriminate].
  match goal with
  | |- context [persist env w2 ?row0] => set (row := row0)
  end.
  pose proof (persist_effects env w2 row) as Hframe3.
  destruct (persist env w2 row) as [[created w3] log4].
  cbn [fst snd] in Hframe3. destruct Hframe3 as (Hq3 & Hu3 & _ & Htx3).
  destruct (negb (validate_response _)); [discriminate |].
  match goal with
  | |- context [store_idempotency_key env w3 ?k txn ?resp 24] =>
      pose proof (store_effects env w3 k txn resp) as Hframe4;
      destruct (store_idempotency_key env w3 k txn resp 24) as [[?|?] w4]
  end;
    cbn [fst snd] in Hframe4; destruct Hframe4 as (Htx4 & Hq4 & Hu4 & _);
    cbn [answer world]; intros [= <-]; cbn;
    (split; [by rewrite Hq4, Hq3, Hq2, Hq1 |]);
    rewrite Htx4;
    (destruct Htx3 as [Hsame | (Hadded & -> & Hup & Huser & Hfresh)];
     [left; by rewrite Hsame, Htx2, Htx1
     | right; exists row; rewrite Hadded, Htx2, Htx1;
       rewrite Hu2, Hu1 in Huser; rewrite Htx2, Htx1 in Hfresh;
       subst row; cbn in *;
       repeat (split; [done |]); try done;
       (split; [by destruct (is_approved _) |]); done ]).
Qed.

(** X21: a fresh request queues the profile update for its user, and
    before it the fraud alert exactly when the response carries the fraud
    flag; nothing else is queued and nothing is removed. *)
Theorem fresh_request_queues_tasks (env : Env) (w : World) (txn : TransactionRequest.t)
    (r : TransactionResponse.t) :
  answer (process_transaction env w txn) = Processed r →
  task_queue (world (process_transaction env w txn)) =
    task_queue w ++
    (if TransactionResponse.is_fraud r
     then [send_fraud_alert_email (TransactionRequest.user_id txn)
             (TransactionResponse.transaction_id r) (TransactionResponse.risk_score r)]
     else []) ++
    [update_user_profile (TransactionRequest.user_id txn) (transaction_data txn)].
Proof. intros Hr. exact (proj1 (fresh_run_effects env w txn r Hr)). Qed.

(** X22: a fresh request adds at most one row to the ledger.  The row, if
    any, carries the response's transaction id, scores and flags and the
    request's key, user and amount, the response's timestamp is then the
    database's, and no earlier row has the same key or id; without a row
    the ledger is unchanged. *)
Theorem fresh_request_adds_one_row (env : Env) (w : World) (txn : TransactionRequest.t)
    (r : TransactionResponse.t) :
  answer (process_transaction env w txn) = Processed r →
  transactions (world (process_transaction env w txn)) = transactions w ∨
  ∃ row,
    transactions (world (process_transaction env w txn)) = transactions w ++ [row] ∧
    Transaction.transaction_id row = TransactionResponse.transaction_id r ∧
    Transaction.idempotency_key row = TransactionRequest.idempotency_key txn ∧
    Transaction.user_id row = TransactionRequest.user_id txn ∧
    Transaction.amount row = TransactionRequest.amount txn ∧
    Transaction.final_risk_score row = TransactionResponse.risk_score r ∧
    Transaction.rule_score row = TransactionResponse.rule_score r ∧
    Transaction.ml_score row = TransactionResponse.ml_score r ∧
    Transaction.is_fraud row = TransactionResponse.is_fraud r ∧
    TransactionResponse.status r
      = (if Transaction.is_approved row then "approved" else "declined") ∧
    TransactionResponse.created_at r = database_now env ∧
    Forall (fun t =>
      Transaction.idempotency_key t ≠ Transaction.idempotency_key row ∧
      Transaction.transaction_id t ≠ Transaction.transaction_id row) (transactions w).
Proof.
  intros Hr. destruct (proj2 (fresh_run_effects env w txn r Hr)) as [Hsame | (row & Hrow)];
    [by left | right].
  exists row. destruct Hrow as (? & ? & ? & ? & ? & ? & ? & ? & ? & ? & ? & _ & _ & ?). done.
Qed.

End EffectProperties.

Lemma sample_response_is_valid : validate_response sample_response = true.
Proof.
  unfold validate_response, sample_response.
  cbn [TransactionResponse.risk_score TransactionResponse.rule_score
       TransactionResponse.ml_score].
  rewrite !andb_true_iff, !in_unit_interval_true. Lra.lra.
Qed.

Lemma live_world_replays :
  answer (process_transaction (H := sample_builtins) (H0 := sample_digest)
            sample_env live_world sample_request) = Replayed sample_response.
Proof.
  unfold process_transaction, resolve_idempotency.
  rewrite (table_hit (H := sample_digest) sample_env live_world
             (TransactionRequest.idempotency_key sample_request)
             sample_request live_record live_world_cache_is_empty eq_refl eq_refl
             live_record_matches eq_refl).
  cbn [IdempotencyKey.response_data live_record].
  by rewrite sample_response_is_valid.
Qed.

Lemma replay_has_no_side_effects_witness :
  transactions (world (process_transaction (H := sample_builtins) (H0 := sample_digest)
                         sample_env live_world sample_request))
  = transactions live_world ∧
  task_queue (world (process_transaction (H := sample_builtins) (H0 := sample_digest)
                       sample_env live_world sample_request))
  = task_queue live_world.
Proof.
  destruct (replay_has_no_side_effects (H := sample_builtins) (H0 := sample_digest)
              sample_env live_world sample_request sample_response live_world_replays)
    as (Hledger & Hqueue & _).
  split; [exact Hledger | exact Hqueue].
Defined.

Lemma fresh_request_queues_tasks_witness :
  ∃ r,
    answer (process_transaction (H := sample_builtins) (H0 := sample_digest)
              sample_env empty_world sample_request) = Processed r ∧
    task_queue (world (process_transaction (H := sample_builtins) (H0 := sample_digest)
                         sample_env empty_world sample_request)) =
      task_queue empty_world ++
      (if TransactionResponse.is_fraud r
       then [send_fraud_alert_email (TransactionRequest.user_id sample_request)
               (TransactionResponse.transaction_id r) (TransactionResponse.risk_score r)]
       else []) ++
      [update_user_profile (TransactionRequest.user_id sample_request)
         (transaction_data sample_request)].
Proof.
  destruct (process_fresh (H := sample_builtins) (H0 := sample_digest)
              sample_env empty_world sample_request empty_world [] 0%R
              sample_request_misses eq_refl) as (q & r & Hr & _).
  exists r. split; [exact Hr |].
  exact (fresh_request_queues_tasks (H := sample_builtins) (H0 := sample_digest)
           sample_env empty_world sample_request r Hr).
Defined.

Lemma fresh_request_adds_one_row_witness :
  ∃ r,
    answer (process_transaction (H := sample_builtins) (H0 := sample_digest)
              sample_env empty_world sample_request) = Processed r ∧
    (length (transactions (world (process_transaction (H := sample_builtins)
                                    (H0 := sample_digest)
                                    sample_env empty_world sample_request))) <= 1)%nat.
Proof.
  destruct (process_fresh (H := sample_builtins) (H0 := sample_digest)
              sample_env empty_world sample_request empty_world [] 0%R
              sample_request_misses eq_refl) as (q & r & Hr & _).
  exists r. split; [exact Hr |].
  destruct (fresh_request_adds_one_row (H := sample_builtins) (H0 := sample_digest)
              sample_env empty_world sample_request r Hr) as [-> | (row & -> & _)].
  - cbn. lia.
  - cbn. lia.
Defined.

Section LedgerProperties.
Context `{Builtins} `{Digest}.

(** Whatever the answer, the ledger is unchanged or has one more row, with
    a key and an id no earlier row has. *)
Lemma run_ledger (env : Env) (w : World) (txn : TransactionRequest.t) :
  transactions (world (process_transaction env w txn)) = transactions w ∨
  ∃ row,
    transactions (world (process_transaction env w txn)) = transactions w ++ [row] ∧
    Forall (fun t =>
      Transaction.idempotency_key t ≠ Transaction.idempotency_key row ∧
      Transaction.transaction_id t ≠ Transaction.transaction_id row) (transactions w).
Proof.
  unfold process_transaction.
  pose proof (resolve_idempotency_frame env w txn) as Hframe1.
  destruct (resolve_idempotency env w txn) as [[cached w1] log1].
  cbn [fst snd] in Hframe1. destruct Hframe1 as (Htx1 & _).
  destruct cached as [cached|]; [by left |].
  pose proof (load_profile_effects env w1 txn) as Hframe2.
  destruct (load_profile env w1 txn) as [[user_profile w2] log2].
  cbn [fst snd] in Hframe2. destruct Hframe2 as (Htx2 & _).
  destruct (evaluate_rules env w2 (transaction_data txn)) as [rule_value log3].
  destruct (score_transaction _) as [ml|]; [| left; cbn; congruence].
  destruct (as_number rule_value) as [q|]; [| left; cbn; congruence].
  match goal with
  | |- context [persist env w2 ?row0] => set (row := row0)
  end.
  pose proof (persist_effects env w2 row) as Hframe3.
  destruct (persist env w2 row) as [[created w3] log4].
  cbn [fst snd] in Hframe3. destruct Hframe3 as (_ & _ & _ & Htx3).
  assert (transactions w3 = transactions w ∨
          ∃ row, transactions w3 = transactions w ++ [row] ∧
            Forall (fun t =>
              Transaction.idempotency_key t ≠ Transaction.idempotency_key row ∧
              Transaction.transaction_id t ≠ Transaction.transaction_id row)
              (transactions w)) as Hledger.
  { destruct Htx3 as [Hsame | (Hadded & _ & _ & _ & Hfresh)].
    - left. congruence.
    - right. exists row. rewrite Hadded, Htx2, Htx1. split; [done |].
      by rewrite Htx2, Htx1 in Hfresh. }
  destruct (negb (validate_response _)); [exact Hledger |].
  match goal with
  | |- context [store_idempotency_key env w3 ?k txn ?resp 24] =>
      pose proof (store_effects env w3 k txn resp) as Hframe4;
      destruct (store_idempotency_key env w3 k txn resp 24) as [[?|?] w4]
  end;
    cbn [fst snd] in Hframe4; destruct Hframe4 as (Htx4 & _); cbn;
    rewrite Htx4; exact Hledger.
Qed.

(** X23: the ledger's two unique columns stay unique.  If no two rows
    share an idempotency key and no two share a transaction id before a
    request, the same holds after it, whatever the request and whatever
    the answer. *)
Theorem ledger_columns_stay_unique (env : Env) (w : World) (txn : TransactionRequest.t) :
  NoDup (map Transaction.idempotency_key (transactions w)) →
  NoDup (map Transaction.transaction_id (transactions w)) →
  NoDup (map Transaction.idempotency_key
           (transactions (world (process_transaction env w txn)))) ∧
  NoDup (map Transaction.transaction_id
           (transactions (world (process_transaction env w txn)))).
Proof.
  intros Hkeys Hids.
  destruct (run_ledger env w txn) as [-> | (row & -> & Hfresh)]; [done |].
  rewrite !map_app. cbn [map].
  split; apply NoDup_app; (split; [done |]); (split; [| apply NoDup_singleton]);
    intros x Hx Hrow; apply list_elem_of_singleton in Hrow; subst x;
    apply list_elem_of_fmap in Hx as (t & Heq & Ht);
    rewrite Forall_forall in Hfresh; destruct (Hfresh t Ht) as [Hk Hi]; congruence.
Qed.

Lemma sum_amounts_app (l : list Q) (a : Q) :
  (sum_amounts (l ++ [a]) == sum_amounts l + a)%Q.
Proof.
  induction l as [|x l IH]; cbn.
  - Lqa.lra.
  - unfold sum_amounts in IH. rewrite IH. Lqa.lra.
Qed.


(** X25: rows of the idempotency table are write-once.  A row that is
    in the table before a request is still there, unchanged, after it,
    unless it is the row of the request's own key, holds the request's
    hash and has expired. *)
Theorem table_rows_are_write_once (env : Env) (w : World) (txn : TransactionRequest.t)
    (key : string) (record : IdempotencyKey.t) :
  idempotency_keys w !! key = Some record →
  idempotency_keys (world (process_transaction env w txn)) !! key = Some record ∨
  (key = TransactionRequest.idempotency_key txn ∧
   IdempotencyKey.request_hash record = generate_request_hash txn ∧
   (IdempotencyKey.expires_at record <= utcnow env)%Z).
Proof.
  intros Hrecord. unfold process_transaction.
  pose proof (resolve_idempotency_frame env w txn) as Hframe1.
  destruct (resolve_idempotency env w txn) as [[cached w1] log1].
  cbn [fst snd] in Hframe1. destruct Hframe1 as (_ & _ & _ & _ & _ & Hkeys1).
  assert (idempotency_keys w1 !! key = Some record ∨
          (key = TransactionRequest.idempotency_key txn ∧
           IdempotencyKey.request_hash record = generate_request_hash txn ∧
           (IdempotencyKey.expires_at record <= utcnow env)%Z)) as [Hkept | Hexpired].
  { destruct Hkeys1 as [-> | (-> & old & Hold & Hhash & Hdead)]; [by left |].
    destruct (decide (key = TransactionRequest.idempotency_key txn)) as [-> | Hother].
    - right. rewrite Hrecord in Hold. injection Hold as <-. done.
    - left. by rewrite lookup_delete_ne. }
  2: by right.
  left. destruct cached as [cached|]; [exact Hkept |].
  pose proof (load_profile_effects env w1 txn) as Hframe2.
  destruct (load_profile env w1 txn) as [[user_profile w2] log2].
  cbn [fst snd] in Hframe2. destruct Hframe2 as (_ & _ & _ & Hkeys2).
  destruct (evaluate_rules env w2 (transaction_data txn)) as [rule_value log3].
  destruct (score_transaction _) as [ml|]; [| cbn; congruence].
  destruct (as_number rule_value) as [q|]; [| cbn; congruence].
  match goal with
  | |- context [persist env w2 ?row0] => set (row := row0)
  end.
  pose proof (persist_effects env w2 row) as Hframe3.
  destruct (persist env w2 row) as [[created w3] log4].
  cbn [fst snd] in Hframe3. destruct Hframe3 as (_ & _ & Hkeys3 & _).
  assert (idempotency_keys w3 !! key = Some record) as Hkept3 by congruence.
  destruct (negb (validate_response _)); [exact Hkept3 |].
  match goal with
  | |- context [store_idempotency_key env w3 ?k txn ?resp 24] =>
      pose proof (store_effects env w3 k txn resp) as Hframe4;
      destruct (store_idempotency_key env w3 k txn resp 24) as [[?|?] w4]
  end;
    cbn [fst snd] in Hframe4; destruct Hframe4 as (_ & _ & _ & Hkeys4); cbn;
    (destruct Hkeys4 as [-> | (Hfree & new & ->)]; [exact Hkept3 |]);
    (rewrite lookup_insert_ne; [exact Hkept3 | congruence]).
Qed.

End LedgerProperties.

Lemma ledger_columns_stay_unique_witness :
  NoDup (map Transaction.idempotency_key
           (transactions (world (process_transaction (H := sample_builtins)
                                   (H0 := sample_digest)
                                   sample_env ledger_world sample_request)))) ∧
  NoDup (map Transaction.transaction_id
           (transactions (world (process_transaction (H := sample_builtins)
                                   (H0 := sample_digest)
                                   sample_env ledger_world sample_request)))).
Proof.
  apply (ledger_columns_stay_unique (H := sample_builtins) (H0 := sample_digest)
           sample_env ledger_world sample_request).
  - apply (bool_decide_unpack _). by vm_compute.
  - apply (bool_decide_unpack _). by vm_compute.
Defined.


Lemma table_rows_are_write_once_witness :
  idempotency_keys
    (world (process_transaction (H := sample_builtins) (H0 := sample_digest)
              sample_env live_world conflicting_request)) !! "test-key-123"
  = Some live_record.
Proof.
  destruct (table_rows_are_write_once (H := sample_builtins) (H0 := sample_digest)
              sample_env live_world conflicting_request "test-key-123" live_record eq_refl)
    as [Hkept | (_ & Hhash & _)].
  - exact Hkept.
  - vm_compute in Hhash. discriminate Hhash.
Defined.

(** ** Retries under the same key *)

Section RetryProperties.
Context `{Builtins} `{Digest}.

(** The handler hands [response_data.dict()] to the store; its
    [created_at] is a [datetime], so the store raises before it writes. *)
Lemma store_of_response_fails (env : Env) (w : World) (key : string)
    (body : TransactionRequest.t) (r : TransactionResponse.t) (ttl_hours : Z) :
  store_idempotency_key env w key body (dict_of_response r) ttl_hours
  = (Raise (if db_up env Commit then TypeError else OperationalError), w).
Proof. unfold store_idempotency_key. by destruct (db_up env Commit). Qed.

Lemma load_profile_keeps_responses (env : Env) (w : World) (txn : TransactionRequest.t) :
  redis_idempotency (snd (fst (load_profile env w txn))) = redis_idempotency w.
Proof.
  unfold load_profile, get_user_profile, set_user_profile, redis_get, redis_setex.
  destruct (redis_up env ProfileLookup); cbn [rbind]; [| done].
  destruct (redis_user_profile w !! _) as [[p expiry]|];
    [destruct (utcnow env <? expiry)%Z; [destruct p |] |]; done.
Qed.

Lemma persist_keeps_responses (env : Env) (w : World) (row : Transaction.t) :
  redis_idempotency (snd (fst (persist env w row))) = redis_idempotency w.
Proof.
  unfold persist. destruct (negb (db_up env Persist)); [done |].
  by destruct (_ && _).
Qed.

Lemma persist_succeeds (env : Env) (w : World) (row : Transaction.t) :
  db_up env Persist = true →
  Transaction.user_id row ∈ users w →
  Forall (fun t =>
    Transaction.idempotency_key t ≠ Transaction.idempotency_key row ∧
    Transaction.transaction_id t ≠ Transaction.transaction_id row) (transactions w) →
  persist env w row
  = (database_now env, with_transactions w (transactions w ++ [row]), []).
Proof.
  intros Hdb Huser Hfresh. unfold persist. rewrite Hdb. cbn [negb].
  assert (forallb (fun t =>
            negb (String.eqb (Transaction.idempotency_key t)
                    (Transaction.idempotency_key row)) &&
            negb (String.eqb (Transaction.transaction_id t)
                    (Transaction.transaction_id row))) (transactions w) = true) as ->.
  { apply forallb_forall. intros t Ht. rewrite Forall_forall in Hfresh.
    destruct (Hfresh t (proj2 (list_elem_of_In _ _) Ht)) as [Hk Hi].
    apply andb_true_iff. split; apply negb_true_iff; by apply String.eqb_neq. }
  by rewrite bool_decide_eq_true_2.
Qed.

(** No run of the handler commits its result: the store is reached only
    with the dictionary it rejects. *)
Lemma run_is_never_committed (env : Env) (w : World) (txn : TransactionRequest.t) :
  committed (process_transaction env w txn) = false.
Proof.
  unfold committed, process_transaction.
  destruct (resolve_idempotency env w txn) as [[[cached|] w1] log1]; [done |].
  destruct (load_profile env w1 txn) as [[user_profile w2] log2].
  destruct (evaluate_rules env w2 (transaction_data txn)) as [rule_value log3].
  destruct (score_transaction _) as [ml|]; [| done].
  destruct (as_number rule_value) as [q|]; [| done].
  destruct (persist env w2 _) as [[created w3] log4].
  destruct (negb (validate_response _)); [done |].
  rewrite store_of_response_fails. cbn [answer log].
  rewrite !existsb_app. cbn [existsb store_failed]. by rewrite !orb_true_r.
Qed.

(** A request that is not answered from the store leaves the Redis
    responses and the table of keys as the check left them, and prints
    the store's failure when it answers. *)
Lemma fresh_run_leaves_stores (env : Env) (w : World) (txn : TransactionRequest.t)
    (w1 : World) (log1 : list warning) :
  resolve_idempotency env w txn = (None, w1, log1) →
  redis_idempotency (world (process_transaction env w txn)) = redis_idempotency w1 ∧
  idempotency_keys (world (process_transaction env w txn)) = idempotency_keys w1 ∧
  (∀ r, answer (process_transaction env w txn) = Processed r →
        IdempotencyStoreFailed (if db_up env Commit then TypeError else OperationalError)
          ∈ log (process_transaction env w txn)).
Proof.
  intros Hmiss. unfold process_transaction. rewrite Hmiss.
  pose proof (load_profile_keeps_responses env w1 txn) as Hredis2.
  pose proof (load_profile_effects env w1 txn) as Hframe2.
  destruct (load_profile env w1 txn) as [[user_profile w2] log2].
  cbn [fst snd] in Hredis2, Hframe2. destruct Hframe2 as (_ & _ & _ & Hkeys2).
  destruct (evaluate_rules env w2 (transaction_data txn)) as [rule_value log3].
  destruct (score_transaction _) as [ml|];
    [| cbn; split; [done |]; split; [done |]; intros r [=]].
  destruct (as_number rule_value) as [q|];
    [| cbn; split; [done |]; split; [done |]; intros r [=]].
  match goal with
  | |- context [persist env w2 ?row0] =>
      pose proof (persist_keeps_responses env w2 row0) as Hredis3;
      pose proof (persist_effects env w2 row0) as Hframe3;
      destruct (persist env w2 row0) as [[created w3] log4]
  end.
  cbn [fst snd] in Hredis3, Hframe3. destruct Hframe3 as (_ & _ & Hkeys3 & _).
  destruct (negb (validate_response _)).
  - cbn. split; [by rewrite Hredis3 |]. split; [by rewrite Hkeys3 |]. intros r [=].
  - rewrite store_of_response_fails. cbn.
    split; [by rewrite Hredis3 |]. split; [by rewrite Hkeys3 |].
    intros r _. rewrite !elem_of_app. do 4 right. apply list_elem_of_here.
Qed.

(** A key that neither Redis nor the table knows is a miss, whether or
    not they answer. *)
Lemma unknown_key_misses (env : Env) (w : World) (txn : TransactionRequest.t) :
  redis_idempotency w !! TransactionRequest.idempotency_key txn = None →
  idempotency_keys w !! TransactionRequest.idempotency_key txn = None →
  ∃ log1, resolve_idempotency env w txn = (None, w, log1).
Proof.
  intros Hredis Htable.
  unfold resolve_idempotency, check_idempotency_key, get_idempotency_response, redis_get.
  destruct (redis_up env IdempotencyCheck); cbn [rbind]; [| eauto].
  rewrite Hredis. destruct (db_up env IdempotencyCheck); cbn [negb]; [| eauto].
  rewrite Htable. eauto.
Qed.

(** A fresh request whose row the ledger accepts is answered with the
    row's id and the database's timestamp. *)
Lemma fresh_run_persists (env : Env) (w : World) (txn : TransactionRequest.t)
    (w1 : World) (log1 : list warning) (d : R) :
  resolve_idempotency env w txn = (None, w1, log1) →
  decision_function env (transaction_data txn) (fst (fst (load_profile env w1 txn))) = Ok d →
  db_up env Persist = true →
  TransactionRequest.user_id txn ∈ users w1 →
  Forall (fun t =>
    Transaction.idempotency_key t ≠ TransactionRequest.idempotency_key txn ∧
    Transaction.transaction_id t ≠ uuid4 env) (transactions w1) →
  ∃ r row,
    answer (process_transaction env w txn) = Processed r ∧
    transactions (world (process_transaction env w txn)) = transactions w1 ++ [row] ∧
    Transaction.transaction_id row = TransactionResponse.transaction_id r ∧
    Transaction.idempotency_key row = TransactionRequest.idempotency_key txn ∧
    TransactionResponse.created_at r = database_now env.
Proof.
  intros Hmiss Hmodel Hdb Huser Hfresh.
  destruct (process_fresh env w txn w1 log1 d Hmiss Hmodel) as (q & r & Hr & _).
  exists r. revert Hr. unfold process_transaction. rewrite Hmiss.
  pose proof (load_profile_effects env w1 txn) as Hframe2.
  destruct (load_profile env w1 txn) as [[user_profile w2] log2].
  cbn [fst snd] in Hframe2. destruct Hframe2 as (Htx2 & _ & Hu2 & _).
  destruct (evaluate_rules env w2 (transaction_data txn)) as [rule_value log3].
  destruct (score_transaction _) as [ml|]; [| discriminate].
  destruct (as_number rule_value) as [q'|]; [| discriminate].
  match goal with
  | |- context [persist env w2 ?row0] => set (row := row0)
  end.
  rewrite (persist_succeeds env w2 row Hdb);
    [| by rewrite Hu2 | by rewrite Htx2].
  destruct (negb (validate_response _)); [discriminate |].
  rewrite store_of_response_fails. cbn [answer world].
  intros [= <-]. exists row. cbn. by rewrite Htx2.
Qed.

End RetryProperties.

Lemma first_run_stores_nothing :
  redis_idempotency (world first_run) = ∅ ∧ idempotency_keys (world first_run) = ∅.
Proof.
  destruct (fresh_run_leaves_stores (H := sample_builtins) (H0 := sample_digest)
              sample_env empty_world sample_request empty_world [] sample_request_misses)
    as (Hredis & Htable & _).
  split; [exact Hredis | exact Htable].
Qed.

(** A retry after [first_run], under its key, is processed as a new
    request whatever its body. *)
Lemma retry_is_processed (txn : TransactionRequest.t) :
  TransactionRequest.idempotency_key txn = "test-key-123" →
  ∃ r,
    answer (process_transaction (H := sample_builtins) (H0 := sample_digest)
              later_env (world first_run) txn) = Processed r ∧
    TransactionResponse.transaction_id r = "5f0c1a8e-0002".
Proof.
  intros Hkey. destruct first_run_stores_nothing as [Hredis Htable].
  destruct (unknown_key_misses (H0 := sample_digest)
              later_env (world first_run) txn) as [log1 Hmiss].
  { by rewrite Hredis. }
  { by rewrite Htable. }
  destruct (process_fresh (H := sample_builtins) (H0 := sample_digest)
              later_env (world first_run) txn (world first_run) log1 0%R Hmiss eq_refl)
    as (q & r & Hr & _ & _ & _ & Hid & _).
  exists r. split; [exact Hr | exact Hid].
Qed.

(** C2 on the code: the first submission is answered, but its result is
    not stored, neither in Redis nor in the table; the identical body
    under the same key a minute later is processed again and answered
    with another transaction id. *)
Theorem identical_retry_is_processed_again :
  ∃ r1 r2,
    answer first_run = Processed r1 ∧
    committed first_run = false ∧
    IdempotencyStoreFailed TypeError ∈ log first_run ∧
    redis_idempotency (world first_run) = ∅ ∧
    idempotency_keys (world first_run) = ∅ ∧
    answer identical_retry = Processed r2 ∧
    TransactionResponse.transaction_id r1 = "5f0c1a8e-0001" ∧
    TransactionResponse.transaction_id r2 = "5f0c1a8e-0002".
Proof.
  destruct (process_fresh (H := sample_builtins) (H0 := sample_digest)
              sample_env empty_world sample_request empty_world [] 0%R
              sample_request_misses eq_refl) as (q & r1 & Hr1 & _ & _ & _ & Hid1 & _).
  destruct (retry_is_processed sample_request eq_refl) as (r2 & Hr2 & Hid2).
  destruct (fresh_run_leaves_stores (H := sample_builtins) (H0 := sample_digest)
              sample_env empty_world sample_request empty_world [] sample_request_misses)
    as (Hredis & Htable & Hlog).
  exists r1, r2. split; [exact Hr1 |].
  split; [apply run_is_never_committed |].
  split; [exact (Hlog r1 Hr1) |].
  split; [exact Hredis |]. split; [exact Htable |].
  split; [exact Hr2 |]. split; [exact Hid1 | exact Hid2].
Qed.

(** C1 on the code: the first request is processed and its row is in the
    ledger; the second carries the same key and another amount, and is
    answered 200 with a decision of its own.  Where the table does hold
    the record of the first request, the check raises the 409, the handler
    prints it and answers 200 all the same. *)
Theorem conflicting_retry_is_answered_200 :
  generate_request_hash (H := sample_digest) sample_request
    ≠ generate_request_hash (H := sample_digest) conflicting_request ∧
  (∃ r1 row,
     answer first_run = Processed r1 ∧
     transactions (world first_run) = [row] ∧
     Transaction.transaction_id row = TransactionResponse.transaction_id r1 ∧
     Transaction.idempotency_key row = "test-key-123") ∧
  (∃ r2,
     answer conflicting_retry = Processed r2 ∧
     http_status (answer conflicting_retry) = 200%nat ∧
     TransactionResponse.transaction_id r2 = "5f0c1a8e-0002") ∧
  check_idempotency_key (H := sample_digest) sample_env live_world "test-key-123"
    conflicting_request = (Raise (HTTPException 409), live_world) ∧
  (∃ r,
     answer seeded_conflict = Processed r ∧
     http_status (answer seeded_conflict) = 200%nat ∧
     IdempotencyCheckFailed (HTTPException 409) ∈ log seeded_conflict).
Proof.
  split; [by vm_compute |]. split; [| split; [| split]].
  - destruct (fresh_run_persists (H := sample_builtins) (H0 := sample_digest)
                sample_env empty_world sample_request empty_world [] 0%R
                sample_request_misses eq_refl eq_refl)
      as (r1 & row & Hr1 & Hrows & Hid & Hkey & _).
    + apply (bool_decide_unpack _). by vm_compute.
    + constructor.
    + exists r1, row. split; [exact Hr1 |]. split; [exact Hrows |].
      split; [exact Hid | exact Hkey].
  - destruct (retry_is_processed conflicting_request eq_refl) as (r2 & Hr2 & Hid2).
    exists r2. split; [exact Hr2 |]. split; [| exact Hid2].
    unfold conflicting_retry. by rewrite Hr2.
  - refine (proj1 (swallowed_conflict (H0 := sample_digest) sample_env live_world
                     conflicting_request live_record eq_refl eq_refl eq_refl _)).
    by vm_compute.
  - destruct (swallowed_conflict (H0 := sample_digest) sample_env live_world
                conflicting_request live_record eq_refl eq_refl eq_refl)
      as [_ Hresolve]; [by vm_compute |].
    destruct (process_fresh (H := sample_builtins) (H0 := sample_digest)
                sample_env live_world conflicting_request live_world _ 0%R Hresolve eq_refl)
      as (q & r & Hr & Hrest).
    exists r. split; [exact Hr |]. split.
    + unfold seeded_conflict. by rewrite Hr.
    + apply Hrest. apply list_elem_of_here.
Qed.

(** ** The rate limiter *)

(** Calls made while the counter is live count on from it and leave its
    expiry alone. *)
Lemma live_counter_counts_on (times : list Z) (counters : gmap string (Z * option Z))
    (key : string) (limit window n : Z) (expiry : option Z) :
  counters !! rate_limit_key key window = Some (n, expiry) →
  (1 <= n)%Z →
  Forall (fun now => counter_live now (n, expiry) = true) times →
  ∃ final,
    rate_limit_calls times counters key limit window
    = (map (fun i => ((i <=? limit)%Z, i)) (seqZ (n + 1) (Z.of_nat (length times))), final) ∧
    final !! rate_limit_key key window = Some ((n + Z.of_nat (length times))%Z, expiry).
Proof.
  revert counters n. induction times as [| now later IH]; intros counters n Hentry Hn Hlive.
  - exists counters. cbn. split; [done |]. by rewrite Z.add_0_r.
  - apply Forall_cons in Hlive as [Hnow Hlater].
    cbn [rate_limit_calls]. unfold increment_rate_limit, redis_incr.
    rewrite Hentry, Hnow.
    destruct (n + 1 =? 1)%Z eqn:Hone; [apply Z.eqb_eq in Hone; lia |].
    destruct (IH (<[rate_limit_key key window := ((n + 1)%Z, expiry)]> counters) (n + 1)%Z)
      as (final & -> & Hfinal).
    + apply lookup_insert_eq.
    + lia.
    + eapply Forall_impl; [exact Hlater |]. intros t Ht. exact Ht.
    + exists final. split.
      * rewrite (seqZ_cons (n + 1)); [| cbn [length]; lia]. cbn [map].
        replace (Z.pred (Z.of_nat (length (now :: later))))
          with (Z.of_nat (length later)) by (cbn [length]; lia).
        by replace (Z.succ (n + 1)) with (n + 1 + 1)%Z by lia.
      * rewrite Hfinal. f_equal. f_equal. cbn [length]. lia.
Qed.

(** X26: a fixed window.  From a counter that is absent or expired, the
    calls made less than [window] seconds after the first are numbered 1,
    2, 3, ..., each allowed exactly when its number is at most the limit,
    and the counter is left to expire [window] seconds after the first
    call, whenever the later ones came. *)
Theorem rate_limit_is_a_fixed_window (first : Z) (later : list Z)
    (counters : gmap string (Z * option Z)) (key : string) (limit window : Z) :
  (0 < window)%Z →
  (∀ entry, counters !! rate_limit_key key window = Some entry →
            counter_live first entry = false) →
  Forall (fun now => (first <= now < first + window)%Z) later →
  ∃ final,
    rate_limit_calls (first :: later) counters key limit window
    = (map (fun i => ((i <=? limit)%Z, i)) (seqZ 1 (Z.of_nat (length (first :: later)))),
       final) ∧
    final !! rate_limit_key key window
    = Some (Z.of_nat (length (first :: later)), Some (first + window)%Z).
Proof.
  intros Hwindow Hdead Hlater.
  cbn [rate_limit_calls]. unfold increment_rate_limit.
  assert (redis_incr first counters (rate_limit_key key window)
          = (1%Z, <[rate_limit_key key window := (1%Z, None)]> counters)) as ->.
  { unfold redis_incr.
    destruct (counters !! rate_limit_key key window) as [[n expiry]|] eqn:Hentry; [| done].
    by rewrite (Hdead _ eq_refl). }
  cbn [Z.eqb Pos.eqb]. unfold redis_expire. rewrite lookup_insert_eq, insert_insert_eq.
  destruct (live_counter_counts_on later
              (<[rate_limit_key key window := (1%Z, Some (first + window)%Z)]> counters)
              key limit window 1 (Some (first + window)%Z))
    as (final & -> & Hfinal).
  - apply lookup_insert_eq.
  - lia.
  - eapply Forall_impl; [exact Hlater |]. intros t Ht. cbv beta in Ht.
    unfold counter_live. cbn [snd]. apply Z.ltb_lt. lia.
  - exists final. split.
    + rewrite (seqZ_cons 1); [| cbn [length]; lia]. cbn [map].
      replace (Z.pred (Z.of_nat (length (first :: later))))
        with (Z.of_nat (length later)) by (cbn [length]; lia).
      done.
    + rewrite Hfinal. f_equal. f_equal. cbn [length]. lia.
Qed.

(** X27: a counter that lost its expiry never starts a new window.  The
    expiry is set only by the call that counts 1, so from a counter that
    is at [n >= 1] without expiry every later call counts on, whenever it
    comes, as long as the count stays within Redis's 64-bit integers;
    once [n] has reached the limit none of these calls is allowed. *)
Theorem counter_without_expiry_never_resets (times : list Z)
    (counters : gmap string (Z * option Z)) (key : string) (limit window n : Z) :
  counters !! rate_limit_key key window = Some (n, None) →
  (1 <= n)%Z →
  (n + Z.of_nat (length times) < 2 ^ 63)%Z →
  ∃ final,
    rate_limit_calls times counters key limit window
    = (map (fun i => ((i <=? limit)%Z, i)) (seqZ (n + 1) (Z.of_nat (length times))), final) ∧
    final !! rate_limit_key key window = Some ((n + Z.of_nat (length times))%Z, None) ∧
    ((limit <= n)%Z →
     Forall (fun answer => fst answer = false)
       (fst (rate_limit_calls times counters key limit window))).
Proof.
  intros Hentry Hn _.
  destruct (live_counter_counts_on times counters key limit window n None Hentry Hn)
    as (final & Hcalls & Hfinal).
  - by apply Forall_forall.
  - exists final. split; [exact Hcalls |]. split; [exact Hfinal |].
    intros Hlimit. rewrite Hcalls. cbn [fst]. apply Forall_forall.
    intros answer Hanswer. apply list_elem_of_fmap in Hanswer as (i & -> & Hi).
    apply elem_of_seqZ in Hi. cbn. apply Z.leb_gt. lia.
Qed.

(** ** Balance, history and rule management *)

Lemma insert_by_recency_perm (t : Transaction.t) (l : list Transaction.t) :
  insert_by_recency t l ≡ₚ t :: l.
Proof.
  induction l as [| x l IH]; [done |]. cbn.
  destruct (Transaction.created_at x <=? Transaction.created_at t)%Z; [done |].
  rewrite IH. apply Permutation_swap.
Qed.

Lemma insert_by_recency_sorted (t : Transaction.t) (l : list Transaction.t) :
  StronglySorted (fun a b => (Transaction.created_at b <= Transaction.created_at a)%Z) l →
  StronglySorted (fun a b => (Transaction.created_at b <= Transaction.created_at a)%Z)
    (insert_by_recency t l).
Proof.
  induction l as [| x l IH]; intros Hsorted; cbn.
  - repeat constructor.
  - apply StronglySorted_inv in Hsorted as [Hl Hx].
    destruct (Transaction.created_at x <=? Transaction.created_at t)%Z eqn:E.
    + apply Z.leb_le in E. constructor; [by constructor |].
      constructor; [done |].
      eapply Forall_impl; [exact Hx |]. cbn. intros y Hy. by etrans.
    + apply Z.leb_gt in E. constructor; [by apply IH |].
      rewrite insert_by_recency_perm. constructor; [lia | done].
Qed.

Lemma most_recent_first_perm (rows : list Transaction.t) :
  most_recent_first rows ≡ₚ rows.
Proof.
  induction rows as [| t rows IH]; [done |].
  cbn. rewrite insert_by_recency_perm. by constructor.
Qed.

Lemma most_recent_first_sorted (rows : list Transaction.t) :
  StronglySorted (fun a b => (Transaction.created_at b <= Transaction.created_at a)%Z)
    (most_recent_first rows).
Proof.
  induction rows as [| t rows IH]; [constructor |].
  cbn. by apply insert_by_recency_sorted.
Qed.




Lemma rate_limit_is_a_fixed_window_witness :
  ∃ final,
    rate_limit_calls [1000; 1010; 1059]%Z ∅ "user123" 2 60
    = ([(true, 1%Z); (true, 2%Z); (false, 3%Z)], final) ∧
    final !! rate_limit_key "user123" 60 = Some (3%Z, Some 1060%Z).
Proof.
  apply (rate_limit_is_a_fixed_window 1000 [1010; 1059]%Z ∅ "user123" 2 60).
  - lia.
  - intros entry Hentry. rewrite lookup_empty in Hentry. discriminate Hentry.
  - repeat constructor; lia.
Defined.

Lemma counter_without_expiry_never_resets_witness :
  ∃ final,
    rate_limit_calls [1000; 90000]%Z {[rate_limit_key "user123" 60 := (5%Z, None)]}
      "user123" 5 60
    = ([(false, 6%Z); (false, 7%Z)], final) ∧
    final !! rate_limit_key "user123" 60 = Some (7%Z, None).
Proof.
  destruct (counter_without_expiry_never_resets [1000; 90000]%Z
              {[rate_limit_key "user123" 60 := (5%Z, None)]} "user123" 5 60 5)
    as (final & Hcalls & Hfinal & _).
  - apply lookup_singleton_eq.
  - lia.
  - by vm_compute.
  - exists final. split; [exact Hcalls | exact Hfinal].
Defined.



